(** * Art-Net to DMX512 bridge (esp8266_artnet_dmx512.ino)

    A shallow embedding of the frame synthesis and transport-encoding core of
    the sketch: the global universe buffer, the Art-Net callback
    [onDmxPacket], the UART encoder [outputSerial], the I2S/DMA encoder
    ([initI2S], [outputI2S], [flipByte]) and the rate-limited part of [loop].

    Machine integers are [Z] with the wrap-around written out; arrays are
    lists read with stdpp's lookup and written with stdpp's insert. *)

From Stdlib Require Import ZArith Lia List Bool Ascii.
From stdpp Require Import base list strings pretty.

Local Open Scope Z_scope.

(** ** Machine integers *)

(** Conversion to [uint8_t], [uint16_t], [unsigned long] (32 bits on the
    ESP8266) and [long]. *)
Definition u8 (x : Z) : Z := x mod 256.
Definition u16 (x : Z) : Z := x mod 65536.
Definition u32 (x : Z) : Z := x mod 4294967296.
Definition i32 (x : Z) : Z := (x + 2147483648) mod 4294967296 - 2147483648.

(** [#define MIN(x,y) (x<y ? x : y)] *)
Definition MIN (x y : Z) : Z := if x <? y then x else y.

(** ** Bit reversal *)

(** [byte flipByte(byte c)]: the operands are promoted to [int], every
    assignment to [c] and the return convert back to a byte. *)
Definition flipByte (c : Z) : Z :=
  let c := u8 (Z.lor (Z.land (Z.shiftr c 1) 0x55) (Z.land (Z.shiftl c 1) 0xAA)) in
  let c := u8 (Z.lor (Z.land (Z.shiftr c 2) 0x33) (Z.land (Z.shiftl c 2) 0xCC)) in
  u8 (Z.lor (Z.shiftr c 4) (Z.shiftl c 4)).

(** The 256 values of a byte, for exhaustive checks. *)
Definition all_bytes : list Z := map Z.of_nat (seq 0 256).

(** ** Loops and arrays *)

(** [for (int i = 0; i < n; i++) body]: the body runs for i = 0, ..., n-1 in
    this order.  Every loop of the sketch has a bound its body leaves
    unchanged, so the bound is evaluated once, at loop entry. *)
Definition for_upto {S : Type} (n : nat) (body : nat -> S -> S) (s : S) : S :=
  fold_left (fun s i => body i s) (seq 0 n) s.

(** The loops that store into an array have this shape: for i below n,
    [a[off + i] = f i]. *)
Definition fill (off n : nat) (f : nat -> Z) (a : list Z) : list Z :=
  for_upto n (fun i a => <[(off + i)%nat := f i]> a) a.

(** [a[i]] read from an array of bytes or words.  The default stands for a
    read past the end, and stdpp's insert ignores a store past the end;
    neither happens in a state reached from [setup], where [sized] and
    [buffer_ok] below keep every index within its array. *)
Definition read (a : list Z) (i : nat) : Z := default 0 (a !! i).

(** ** Data model *)

(** Modelled from the spec: [Config] is declared in setup_ota.h, which is not
    among the sources.  The sketch reads the three fields below; they are C
    [int]s. *)
Record Config := mkConfig {
  config_universe : Z;
  config_channels : Z;
  config_delay : Z
}.

(** Modelled from the spec: [i2s_packet] is declared in i2s_dmx.h, which is
    not among the sources.  The fields are the ones the sketch accesses, each
    a [uint16_t] or an array of them, in the order of the layout drawn above
    [debugI2S]: ten words of mark before break, two words of break, the mark
    after break, then the null start code and one word per channel. *)
Record i2s_packet := mk_i2s_packet {
  mark_before_break : list Z;
  space_for_break : list Z;
  mark_after_break : Z;
  dmx_bytes : list Z
}.

Definition MBB_WORDS : nat := 10.
Definition SFB_WORDS : nat := 2.

(** The packet as the array of 16-bit words that [debugI2S] and [outputI2S]
    obtain by casting the address of [global.i2s_data]. *)
Definition i2s_words (p : i2s_packet) : list Z :=
  mark_before_break p ++ space_for_break p ++ mark_after_break p :: dmx_bytes p.

(** The global universe buffer ([struct { ... } global], with both
    [ENABLE_UART] and [ENABLE_I2S] defined). *)
Record Global := mkGlobal {
  g_universe : Z;          (* uint16_t *)
  g_length : Z;            (* uint16_t *)
  g_sequence : Z;          (* uint8_t *)
  g_data : list Z;         (* the 512 bytes [data] points to *)
  g_i2s_data : i2s_packet;
  g_i2s_length : Z         (* uint16_t *)
}.

(** What goes out on Serial1. *)
Inductive uart_event : Type :=
| Break
| Tx (b : Z).

(** The program state: the globals of the sketch, the millisecond clock, the
    two output lines as logs, and the contents of memory that [malloc] hands
    out, which the program has not chosen.  The console ([Serial]) and the
    LEDs are left out; they never feed back into the state below. *)
Record World := mkWorld {
  global : Global;
  clock : Z;                     (* milliseconds since power-up *)
  packetCounter : Z;             (* unsigned long *)
  frameCounter : Z;              (* unsigned long *)
  last_packet_received : Z;      (* unsigned long *)
  fps : Z;                       (* the quotient stored in [float fps] *)
  tic_loop : Z;                  (* long *)
  tic_fps : Z;
  tic_packet : Z;
  tic_web : Z;
  tic_uart : Z;
  uartCounter : Z;               (* unsigned long *)
  tic_i2s : Z;
  i2sCounter : Z;                (* unsigned long *)
  serial1 : list uart_event;     (* oldest first *)
  i2s_out : list (list Z);       (* buffers handed to the DMA, oldest first *)
  heap : nat -> Z                (* what the bytes of a block not yet written hold *)
}.

(** Field updates. *)
Definition set_dmx_bytes (v : list Z) (p : i2s_packet) : i2s_packet :=
  mk_i2s_packet (mark_before_break p) (space_for_break p) (mark_after_break p) v.
Definition set_mark_before_break (v : list Z) (p : i2s_packet) : i2s_packet :=
  mk_i2s_packet v (space_for_break p) (mark_after_break p) (dmx_bytes p).
Definition set_mark_after_break (v : Z) (p : i2s_packet) : i2s_packet :=
  mk_i2s_packet (mark_before_break p) (space_for_break p) v (dmx_bytes p).

Definition set_g_universe (v : Z) (g : Global) : Global :=
  mkGlobal v (g_length g) (g_sequence g) (g_data g) (g_i2s_data g) (g_i2s_length g).
Definition set_g_length (v : Z) (g : Global) : Global :=
  mkGlobal (g_universe g) v (g_sequence g) (g_data g) (g_i2s_data g) (g_i2s_length g).
Definition set_g_sequence (v : Z) (g : Global) : Global :=
  mkGlobal (g_universe g) (g_length g) v (g_data g) (g_i2s_data g) (g_i2s_length g).
Definition set_g_data (v : list Z) (g : Global) : Global :=
  mkGlobal (g_universe g) (g_length g) (g_sequence g) v (g_i2s_data g) (g_i2s_length g).
Definition set_g_i2s_data (v : i2s_packet) (g : Global) : Global :=
  mkGlobal (g_universe g) (g_length g) (g_sequence g) (g_data g) v (g_i2s_length g).
Definition set_g_i2s_length (v : Z) (g : Global) : Global :=
  mkGlobal (g_universe g) (g_length g) (g_sequence g) (g_data g) (g_i2s_data g) v.

Definition set_global (v : Global) (w : World) : World :=
  mkWorld v (clock w) (packetCounter w) (frameCounter w) (last_packet_received w)
    (fps w) (tic_loop w) (tic_fps w) (tic_packet w) (tic_web w) (tic_uart w)
    (uartCounter w) (tic_i2s w) (i2sCounter w) (serial1 w) (i2s_out w) (heap w).
Definition set_clock (v : Z) (w : World) : World :=
  mkWorld (global w) v (packetCounter w) (frameCounter w) (last_packet_received w)
    (fps w) (tic_loop w) (tic_fps w) (tic_packet w) (tic_web w) (tic_uart w)
    (uartCounter w) (tic_i2s w) (i2sCounter w) (serial1 w) (i2s_out w) (heap w).
Definition set_packetCounter (v : Z) (w : World) : World :=
  mkWorld (global w) (clock w) v (frameCounter w) (last_packet_received w)
    (fps w) (tic_loop w) (tic_fps w) (tic_packet w) (tic_web w) (tic_uart w)
    (uartCounter w) (tic_i2s w) (i2sCounter w) (serial1 w) (i2s_out w) (heap w).
Definition set_frameCounter (v : Z) (w : World) : World :=
  mkWorld (global w) (clock w) (packetCounter w) v (last_packet_received w)
    (fps w) (tic_loop w) (tic_fps w) (tic_packet w) (tic_web w) (tic_uart w)
    (uartCounter w) (tic_i2s w) (i2sCounter w) (serial1 w) (i2s_out w) (heap w).
Definition set_last_packet_received (v : Z) (w : World) : World :=
  mkWorld (global w) (clock w) (packetCounter w) (frameCounter w) v
    (fps w) (tic_loop w) (tic_fps w) (tic_packet w) (tic_web w) (tic_uart w)
    (uartCounter w) (tic_i2s w) (i2sCounter w) (serial1 w) (i2s_out w) (heap w).
Definition set_fps (v : Z) (w : World) : World :=
  mkWorld (global w) (clock w) (packetCounter w) (frameCounter w) (last_packet_received w)
    v (tic_loop w) (tic_fps w) (tic_packet w) (tic_web w) (tic_uart w)
    (uartCounter w) (tic_i2s w) (i2sCounter w) (serial1 w) (i2s_out w) (heap w).
Definition set_tic_loop (v : Z) (w : World) : World :=
  mkWorld (global w) (clock w) (packetCounter w) (frameCounter w) (last_packet_received w)
    (fps w) v (tic_fps w) (tic_packet w) (tic_web w) (tic_uart w)
    (uartCounter w) (tic_i2s w) (i2sCounter w) (serial1 w) (i2s_out w) (heap w).
Definition set_tic_fps (v : Z) (w : World) : World :=
  mkWorld (global w) (clock w) (packetCounter w) (frameCounter w) (last_packet_received w)
    (fps w) (tic_loop w) v (tic_packet w) (tic_web w) (tic_uart w)
    (uartCounter w) (tic_i2s w) (i2sCounter w) (serial1 w) (i2s_out w) (heap w).
Definition set_tic_packet (v : Z) (w : World) : World :=
  mkWorld (global w) (clock w) (packetCounter w) (frameCounter w) (last_packet_received w)
    (fps w) (tic_loop w) (tic_fps w) v (tic_web w) (tic_uart w)
    (uartCounter w) (tic_i2s w) (i2sCounter w) (serial1 w) (i2s_out w) (heap w).
Definition set_tic_web (v : Z) (w : World) : World :=
  mkWorld (global w) (clock w) (packetCounter w) (frameCounter w) (last_packet_received w)
    (fps w) (tic_loop w) (tic_fps w) (tic_packet w) v (tic_uart w)
    (uartCounter w) (tic_i2s w) (i2sCounter w) (serial1 w) (i2s_out w) (heap w).
Definition set_tic_uart (v : Z) (w : World) : World :=
  mkWorld (global w) (clock w) (packetCounter w) (frameCounter w) (last_packet_received w)
    (fps w) (tic_loop w) (tic_fps w) (tic_packet w) (tic_web w) v
    (uartCounter w) (tic_i2s w) (i2sCounter w) (serial1 w) (i2s_out w) (heap w).
Definition set_uartCounter (v : Z) (w : World) : World :=
  mkWorld (global w) (clock w) (packetCounter w) (frameCounter w) (last_packet_received w)
    (fps w) (tic_loop w) (tic_fps w) (tic_packet w) (tic_web w) (tic_uart w)
    v (tic_i2s w) (i2sCounter w) (serial1 w) (i2s_out w) (heap w).
Definition set_tic_i2s (v : Z) (w : World) : World :=
  mkWorld (global w) (clock w) (packetCounter w) (frameCounter w) (last_packet_received w)
    (fps w) (tic_loop w) (tic_fps w) (tic_packet w) (tic_web w) (tic_uart w)
    (uartCounter w) v (i2sCounter w) (serial1 w) (i2s_out w) (heap w).
Definition set_i2sCounter (v : Z) (w : World) : World :=
  mkWorld (global w) (clock w) (packetCounter w) (frameCounter w) (last_packet_received w)
    (fps w) (tic_loop w) (tic_fps w) (tic_packet w) (tic_web w) (tic_uart w)
    (uartCounter w) (tic_i2s w) v (serial1 w) (i2s_out w) (heap w).
Definition set_serial1 (v : list uart_event) (w : World) : World :=
  mkWorld (global w) (clock w) (packetCounter w) (frameCounter w) (last_packet_received w)
    (fps w) (tic_loop w) (tic_fps w) (tic_packet w) (tic_web w) (tic_uart w)
    (uartCounter w) (tic_i2s w) (i2sCounter w) v (i2s_out w) (heap w).
Definition set_i2s_out (v : list (list Z)) (w : World) : World :=
  mkWorld (global w) (clock w) (packetCounter w) (frameCounter w) (last_packet_received w)
    (fps w) (tic_loop w) (tic_fps w) (tic_packet w) (tic_web w) (tic_uart w)
    (uartCounter w) (tic_i2s w) (i2sCounter w) (serial1 w) v (heap w).

(** One Art-Net DMX packet as the receiver hands it to the callback, and the
    time that passed since the previous call. *)
Record packet := mkPacket {
  p_wait : Z;
  p_universe : Z;   (* uint16_t *)
  p_length : Z;     (* uint16_t *)
  p_sequence : Z;   (* uint8_t *)
  p_data : list Z   (* uint8_t*, [p_length] bytes *)
}.

(** A request that [server.handleClient()] serves, as far as [loop] sees
    it.  The handlers written out in [initServer] begin with
    [tic_web = millis()]; [handleNotFound] and the two handlers of the upload
    are registered by name, without that assignment.  After it a handler
    keeps the caller for some time: it sends a file, [/defaults],
    [/reconnect] and [/reset] wait 2000 ms, and [/reconnect] then stays in
    the configuration portal until that is left.  A handler that ends in
    [ESP.restart()] does not return: such a pass has no end, the program
    starts again from [boot], and it is not a pass of this model.
    [handleJSON] is not part of the sketch file; [config] is fixed over the
    passes considered. *)
Record web_handler := mkHandler {
  sets_tic_web : bool;             (* the handler begins with tic_web = millis() *)
  busy : N                         (* milliseconds until the handler returns *)
}.

(** What the outside world does during one pass of [loop]. *)
Record loop_env := mkEnv {
  wifi_connected : bool;              (* WiFi.status() == WL_CONNECTED *)
  web_request : option web_handler;   (* server.handleClient() serves a request *)
  artnet_packet : option packet       (* artnet.read() decodes an ArtDmx packet *)
}.

(** ** The sketch *)

Section Firmware.

(** Modelled from the spec: [DMX_CHANNELS] is a macro of i2s_dmx.h, which is
    not among the sources; it is the maximum channel count (512 in DMX512). *)
Variable DMX_CHANNELS : nat.

(** The configuration loaded at start-up. *)
Variable config : Config.

(** [millis()] and [delay(ms)].  Time passes in [delay] and between calls. *)
Definition millis (w : World) : Z := u32 (clock w).
Definition delay (ms : Z) (w : World) : World := set_clock (clock w + ms) w.

(** Modelled from the spec: [sendBreak] is defined in send_break.h, which is
    not among the sources.  It emits the break and the mark after break and
    leaves the port at 250000 baud, 8N2. *)
Definition sendBreak (w : World) : World := set_serial1 (serial1 w ++ [Break]) w.

(** [Serial1.write(b)] *)
Definition Serial1_write (b : Z) (w : World) : World :=
  set_serial1 (serial1 w ++ [Tx b]) w.

(** [i2s_write_buffer(frames, frame_count)] of the ESP8266 core: a frame is
    two 16-bit words, and [frame_count] frames are queued for the DMA. *)
Definition i2s_write_buffer (words : list Z) (frame_count : Z) (w : World) : World :=
  set_i2s_out (i2s_out w ++ [take (Z.to_nat (2 * frame_count)) words]) w.

(** [sizeof(global.i2s_data)], in bytes. *)
Definition sizeof_i2s_data : Z :=
  2 * Z.of_nat (MBB_WORDS + SFB_WORDS + 1 + (DMX_CHANNELS + 1)).

(** The symbol [onDmxPacket] stores in [dmx_bytes[i + 1]]: [hi] and [lo] are
    [uint16_t], [(hi << 8) | lo] is computed in [int] and stored as
    [uint16_t]. *)
Definition i2s_symbol (length : Z) (data : list Z) (even_length : Z) (i : nat) : Z :=
  let hi := u16 (if Z.of_nat i <? length then flipByte (read data i) else 0) in
  let lo := if Z.of_nat i =? even_length - 1 then 0x00FF else 0x00FE in
  u16 (Z.lor (Z.shiftl hi 8) lo).

(** The [ENABLE_I2S] block of [onDmxPacket]. *)
Definition onDmxPacket_i2s (length : Z) (data : list Z) (g : Global) : Global :=
  let even_length := DMX_CHANNELS in
  for_upto even_length
    (fun i g =>
       (* Leave the start-byte (index 0) untouched => +1 *)
       set_g_i2s_data
         (set_dmx_bytes
            (<[S i := i2s_symbol length data (Z.of_nat even_length) i]>
               (dmx_bytes (g_i2s_data g)))
            (g_i2s_data g)) g)
    g.

(** The [ENABLE_UART] block of [onDmxPacket]. *)
Definition onDmxPacket_uart (universe length sequence : Z) (data : list Z)
    (g : Global) : Global :=
  let g := set_g_universe universe g in
  let g := set_g_sequence sequence g in
  let g := if length <? 512 then set_g_length length g else g in
  for_upto (Z.to_nat (g_length g))
    (fun i g => set_g_data (<[i := read data i]> (g_data g)) g)
    g.

(** [void onDmxPacket(uint16_t universe, uint16_t length, uint8_t sequence,
    uint8_t * data)]: called for each UDP packet received.  The arguments
    are values of their C types.  What the function prints is left out; the
    counters it prints are kept.  [fps] receives the quotient of two
    [unsigned long]s. *)
Definition onDmxPacket (universe length sequence : Z) (data : list Z)
    (w : World) : World :=
  let now := millis w in
  let w := set_last_packet_received now w in
  (* feedback once per second *)
  let w :=
    if (1000 <? u32 (millis w - tic_fps w)) && (100 <? frameCounter w) then
      let w := set_packetCounter (u32 (packetCounter w + 1)) w in
      let w := set_fps (u32 (1000 * frameCounter w) / u32 (millis w - tic_fps w)) w in
      let w := set_tic_fps (i32 (last_packet_received w)) w in
      set_frameCounter 0 w
    else w in
  if universe =? config_universe config then
    let w := set_global (onDmxPacket_i2s length data (global w)) w in
    set_global (onDmxPacket_uart universe length sequence data (global w)) w
  else w.

(** [void initI2S()]: the packet is cleared, then the mark before break,
    the mark after break and the framing bits of every symbol are set.  The
    pin set-up, [i2s_begin] and [i2s_set_rate] act on the peripheral only. *)
Definition initI2S (g : Global) : Global :=
  (* memset(&global.i2s_data, 0x00, sizeof(global.i2s_data)) *)
  let p := mk_i2s_packet (replicate MBB_WORDS 0) (replicate SFB_WORDS 0) 0
             (replicate (DMX_CHANNELS + 1) 0) in
  (* memset(&global.i2s_data.mark_before_break, 0xff, ...) *)
  let p := set_mark_before_break (replicate MBB_WORDS 0xFFFF) p in
  (* 3 bits (12us) MAB *)
  let p := set_mark_after_break 0x000E p in
  let p := for_upto DMX_CHANNELS
             (fun i p => set_dmx_bytes (<[i := 0x00FE]> (dmx_bytes p)) p) p in
  let p := set_dmx_bytes (<[DMX_CHANNELS := 0x00FF]> (dmx_bytes p)) p in
  set_g_i2s_length (u16 sizeof_i2s_data) (set_g_i2s_data p g).

(** [malloc(n)] cast to a block of [uint8_t]: the bytes are whatever the
    memory holds, nothing clears them. *)
Definition malloc (n : nat) (w : World) : list Z :=
  (fun i => u8 (heap w i)) <$> seq 0 n.

(** The state at power-up: objects of static storage are zero; the heap is
    not, and a pattern other than zero stands for it here. *)
Definition boot : World :=
  mkWorld
    (mkGlobal 0 0 0 []
       (mk_i2s_packet (replicate MBB_WORDS 0) (replicate SFB_WORDS 0) 0
          (replicate (DMX_CHANNELS + 1) 0)) 0)
    0 0 0 0 0 0 0 0 0 0 0 0 0 [] [] (fun i => 0xA5 + Z.of_nat i).

(** [void setup()], as far as it touches the state above: the universe
    buffer, the I2S packet, one second of LED signalling after the
    configuration is loaded, and the timers. *)
Definition setup (w : World) : World :=
  let g := global w in
  let g := set_g_universe 0 g in
  let g := set_g_sequence 0 g in
  let g := set_g_length 512 g in
  let g := set_g_data (malloc 512 w) g in
  let g := for_upto 512 (fun i g => set_g_data (<[i := 0]> (g_data g)) g) g in
  let g := initI2S g in
  let w := set_global g w in
  let w := delay 1000 w in
  let w := set_tic_loop (i32 (millis w)) w in
  let w := set_tic_packet (i32 (millis w)) w in
  let w := set_tic_fps (i32 (millis w)) w in
  let w := set_tic_web 0 w in
  let w := set_tic_uart 0 w in
  set_tic_i2s 0 w.

(** [void outputSerial()]: one frame on Serial1, then the frame counter of
    the diagnostic output ([long] differences wrap as on the target). *)
Definition outputSerial (w : World) : World :=
  let w := sendBreak w in
  let w := Serial1_write 0 w in (* Start-Byte *)
  let w :=
    for_upto (Z.to_nat (MIN (g_length (global w)) (config_channels config)))
      (fun i w => Serial1_write (read (g_data (global w)) i) w) w in
  let w := set_uartCounter (u32 (uartCounter w + 1)) w in
  let now := i32 (millis w) in
  if (1000 <? i32 (now - tic_uart w)) && (100 <? uartCounter w) then
    let w := set_tic_uart now w in
    set_uartCounter 0 w
  else w.

(** [void outputI2S(void)]: the packet goes to the DMA as
    [sizeof(global.i2s_data) / 4] frames. *)
Definition outputI2S (w : World) : World :=
  let frames := sizeof_i2s_data / 4 in
  let w := i2s_write_buffer (i2s_words (g_i2s_data (global w))) frames w in
  let w := set_i2sCounter (u32 (i2sCounter w + 1)) w in
  let now := i32 (millis w) in
  if (1000 <? i32 (now - tic_i2s w)) && (100 <? i2sCounter w) then
    let w := set_tic_i2s now w in
    set_i2sCounter 0 w
  else w.

(** [artnet.read()]: a decoded ArtDmx packet goes to the callback. *)
Definition artnet_read (e : loop_env) (w : World) : World :=
  match artnet_packet e with
  | Some p => onDmxPacket (p_universe p) (p_length p) (p_sequence p) (p_data p) w
  | None => w
  end.

(** [server.handleClient()]: without a request it returns at once; with
    one it runs the handler, which may set [tic_web] and returns when it is
    done.  What the handlers serve is outside the core. *)
Definition handleClient (e : loop_env) (w : World) : World :=
  match web_request e with
  | Some h =>
      let w := if sets_tic_web h then set_tic_web (i32 (millis w)) w else w in
      delay (Z.of_N (busy h)) w
  | None => w
  end.

(** [void loop()], with [ENABLE_STANDALONE], [ENABLE_UART] and [ENABLE_I2S]
    defined and the others not.  [wifiManager.process()] belongs to the
    provisioning portal and is not modelled. *)
Definition loop (e : loop_env) (w : World) : World :=
  let w := handleClient e w in
  let w := if negb (wifi_connected e) then delay 10 w else w in
  if u32 (millis w - tic_web w) <? 5000 then
    delay 25 w
  else
    let w := artnet_read e w in
    (* this section gets executed at a maximum rate of around 40Hz *)
    if u32 (config_delay config) <? u32 (millis w - tic_loop w) then
      let w := set_tic_loop (i32 (millis w)) w in
      let w := set_frameCounter (u32 (frameCounter w + 1)) w in
      let w := outputSerial w in
      outputI2S w
    else w.

(** A sequence of calls of the callback, each after its waiting time. *)
Definition receive (ps : list packet) (w : World) : World :=
  fold_left
    (fun w p =>
       onDmxPacket (p_universe p) (p_length p) (p_sequence p) (p_data p)
         (delay (p_wait p) w))
    ps w.

(** ** Observations *)

(** High and low byte of a 16-bit symbol, as [debugI2S] splits it. *)
Definition hi_byte (b : Z) : Z := u8 (Z.shiftr b 8).
Definition lo_byte (b : Z) : Z := Z.land b 0xFF.

(** The symbol of the frame buffer that carries channel [i] (from 0). *)
Definition channel_symbol (w : World) (i : nat) : option Z :=
  dmx_bytes (g_i2s_data (global w)) !! S i.

(** Number of frames sent by each transport. *)
Definition is_break (e : uart_event) : bool :=
  match e with Break => true | Tx _ => false end.
Definition uart_frames (w : World) : nat := length (List.filter is_break (serial1 w)).
Definition i2s_frames (w : World) : nat := length (i2s_out w).

(** [void printBits(byte b)]: the text it prints on the console, one
    [printf("%u", bit)] per bit, from bit 7 down to bit 0. *)
Definition printBits (b : Z) : string :=
  fold_left
    (fun out j =>
       let bit := u8 (Z.land (Z.shiftr b j) 1) in
       out +:+ pretty (Z.to_N bit))
    [7; 6; 5; 4; 3; 2; 1; 0] "".

(** [Serial.println()] ends the line with a carriage return and a line
    feed. *)
Definition crlf : string :=
  String (Ascii.ascii_of_nat 13) (String (Ascii.ascii_of_nat 10) EmptyString).

(** [void debugI2S()]: the text it prints, the words of the packet as
    sixteen binary digits each, followed by a space. *)
Definition debugI2S (g : Global) : string :=
  let count := sizeof_i2s_data / 2 in
  let words := i2s_words (g_i2s_data g) in
  for_upto (Z.to_nat count)
    (fun i out =>
       let b := read words i in
       let hi := u8 (Z.shiftr b 8) in
       let lo := u8 (Z.land b 0xff) in
       out +:+ printBits hi +:+ printBits lo +:+ " ")
    "" +:+ crlf.

(** [void testCode()] (compiled with [WITH_TEST_CODE]): a triangle wave
    derived from the clock goes to pan and tilt of a moving head, through
    both buffers.  The division and the remainder are those of C, on
    [long]. *)
Definition testCode (w : World) : World :=
  let now := i32 (millis w) in
  let x := u8 (Z.rem (Z.quot now 60) 240) in
  let x := if 120 <? x then u8 (240 - x) else x in
  let g := global w in
  let g := set_g_data (<[1%nat := x]> (g_data g)) g in
  let g := set_g_data (<[2%nat := 0]> (g_data g)) g in
  let g := set_g_data (<[3%nat := x]> (g_data g)) g in
  let g := set_g_data (<[4%nat := 0]> (g_data g)) g in
  let g := set_g_data (<[5%nat := 30]> (g_data g)) g in
  let g := set_g_data (<[6%nat := 0]> (g_data g)) g in
  let g := set_g_data (<[7%nat := 0]> (g_data g)) g in
  let g := set_g_data (<[8%nat := 150]> (g_data g)) g in
  let put (k : nat) (v : Z) (g : Global) : Global :=
    set_g_i2s_data
      (set_dmx_bytes
         (<[k := u16 (Z.lor (Z.shiftl (flipByte v) 8) 0x00FE)]>
            (dmx_bytes (g_i2s_data g)))
         (g_i2s_data g)) g in
  let g := put 1%nat x g in
  let g := put 2%nat 0 g in
  let g := put 3%nat x g in
  let g := put 4%nat 0 g in
  let g := put 5%nat 30 g in
  let g := put 6%nat 0 g in
  let g := put 7%nat 0 g in
  let g := put 8%nat 150 g in
  set_global g w.

(** The main program after [setup]: [loop] again and again, with the time
    that passes before each pass and what the outside world does in it. *)
Definition run (passes : list (Z * loop_env)) (w : World) : World :=
  fold_left (fun w p => loop (snd p) (delay (fst p) w)) passes w.

End Firmware.

(** The array sizes that the type [i2s_packet] fixes. *)
Definition sized (DMX_CHANNELS : nat) (p : i2s_packet) : Prop :=
  length (mark_before_break p) = MBB_WORDS /\
  length (space_for_break p) = SFB_WORDS /\
  length (dmx_bytes p) = (DMX_CHANNELS + 1)%nat.

(** The framing pattern of the symbol at index [j] of [dmx_bytes]: a start
    bit and seven stop bits, and stop bits only for the last one. *)
Definition framing (DMX_CHANNELS : nat) (j : nat) : Z :=
  if (j =? DMX_CHANNELS)%nat then 0xFF else 0xFE.

(** Whether a pass of [loop] reaches the transports.  Before its checks the
    pass spends the time of the web handler, if a request is served, and
    10 ms without WiFi; [check_time] is the value of [millis()] that the
    checks read, and [tic_web_checked] the value of [tic_web] then.  The web
    gate is open when the difference of the two is at least 5000, and a tick
    is due when moreover the time since the last tick is above
    [config.delay] (an [int], compared as [unsigned long]). *)
Definition web_busy (e : loop_env) : Z :=
  match web_request e with
  | Some h => Z.of_N (busy h)
  | None => 0
  end.
Definition pass_wait (e : loop_env) : Z :=
  web_busy e + (if wifi_connected e then 0 else 10).
Definition check_time (e : loop_env) (w : World) : Z :=
  u32 (clock w + pass_wait e).
Definition tic_web_checked (e : loop_env) (w : World) : Z :=
  match web_request e with
  | Some h => if sets_tic_web h then i32 (u32 (clock w)) else tic_web w
  | None => tic_web w
  end.
Definition web_idle (e : loop_env) (w : World) : bool :=
  5000 <=? u32 (check_time e w - tic_web_checked e w).
Definition elapsed (e : loop_env) (w : World) : Z :=
  u32 (check_time e w - tic_loop w).
Definition tick_due (config : Config) (e : loop_env) (w : World) : bool :=
  web_idle e w && (u32 (config_delay config) <? elapsed e w).

(** The invariant of the frame buffer: the preamble as [initI2S] leaves it,
    and the framing pattern in the low byte of every symbol. *)
Definition preamble_init (p : i2s_packet) : Prop :=
  mark_before_break p = replicate MBB_WORDS 0xFFFF /\
  space_for_break p = replicate SFB_WORDS 0 /\
  mark_after_break p = 0x000E.
Definition framed (DMX_CHANNELS : nat) (p : i2s_packet) : Prop :=
  preamble_init p /\
  length (dmx_bytes p) = (DMX_CHANNELS + 1)%nat /\
  forall j s, dmx_bytes p !! j = Some s -> lo_byte s = framing DMX_CHANNELS j.

(** The invariant of the UART side: the buffer [setup] allocated, and a
    stored length within it. *)
Definition buffer_ok (g : Global) : Prop :=
  length (g_data g) = 512%nat /\ g_length g <= 512.

(** The line as the I2S peripheral drives it: every 16-bit word most
    significant bit first, one bit per 4 us; [true] is the mark level. *)
Definition word_bits (w : Z) : list bool :=
  (fun j => Z.testbit w (Z.of_nat j)) <$> rev (seq 0 16).
Definition wire_bits (words : list Z) : list bool := mjoin (word_bits <$> words).

(** A DMX slot as a receiver reads it: a start bit, the eight data bits
    least significant bit first, and here seven stop bits. *)
Definition data_bits (b : Z) : list bool :=
  (fun j => Z.testbit b (Z.of_nat j)) <$> seq 0 8.
Definition uart_slot (b : Z) : list bool :=
  false :: data_bits b ++ replicate 7 true.

(** The number a string of binary digits denotes. *)
Definition parse_bin (s : string) : Z :=
  fold_left (fun acc c => 2 * acc + (if Ascii.eqb c "1"%char then 1 else 0))
    (String.list_ascii_of_string s) 0.

(** The same text [n] times. *)
Definition repeat_string (n : nat) (s : string) : string :=
  fold_right String.append EmptyString (replicate n s).

(** The channel values a packet stands for in the I2S frame: its bytes, and
    zero up to the channel count. *)
Definition padded (DMX_CHANNELS : nat) (data : list Z) : list Z :=
  take DMX_CHANNELS data ++ replicate (DMX_CHANNELS - length data) 0.

(** ** Concrete instances *)

Definition config0 : Config := mkConfig 0 3 25.
Definition world0 : World := setup 512 (boot 512).
Definition quiet : loop_env := mkEnv true None None.

(** Three packets for universe 0: three channels, a hundred channels, and a
    full frame of 512 channels. *)
Definition short_packet : packet := mkPacket 0 0 3 1 [1; 2; 3].
Definition longer_packet : packet := mkPacket 0 0 100 2 (replicate 100 7).
Definition full_packet : packet := mkPacket 0 0 512 2 (replicate 512 7).

(** The state after [setup] and the short packet. *)
Definition world_short : World := receive 512 config0 [short_packet] world0.

(** Five seconds after [setup], beyond the web gate of [loop]. *)
Definition world_idle : World := delay 5000 world0.

(** Eight seconds after power-up, for the test code. *)
Definition world_test : World := delay 7000 world0.

(** A build with three channels, an odd number, after [setup]. *)
Definition world_odd : World := setup 3 (boot 3).

Definition reconnect_request : web_handler := mkHandler true 6000.
Definition file_request : web_handler := mkHandler false 3.

Definition packet_pass : loop_env := mkEnv true None (Some short_packet).
Definition reconnect_pass : loop_env :=
  mkEnv true (Some reconnect_request) (Some short_packet).
Definition file_pass : loop_env :=
  mkEnv true (Some file_request) (Some short_packet).

(** ** Loops *)

Lemma for_upto_S {S : Type} (n : nat) (body : nat -> S -> S) (s : S) :
  for_upto (Datatypes.S n) body s = body n (for_upto n body s).
Proof.
  unfold for_upto. rewrite List.seq_S, fold_left_app. reflexivity.
Qed.

(** A loop that updates one component of a record is the loop on that
    component. *)
Lemma for_upto_lift {A B : Type} (get : A -> B) (set : B -> A -> A)
    (f : nat -> B -> B) (n : nat) (a : A) :
  (forall b a, get (set b a) = b) ->
  (forall b b' a, set b (set b' a) = set b a) ->
  set (get a) a = a ->
  for_upto n (fun i a => set (f i (get a)) a) a = set (for_upto n f (get a)) a.
Proof.
  intros Hgs Hss Hid. induction n as [|n IH].
  - symmetry. exact Hid.
  - rewrite !for_upto_S, IH, Hgs, Hss. reflexivity.
Qed.

Lemma fill_length (off n : nat) (f : nat -> Z) (a : list Z) :
  length (fill off n f a) = length a.
Proof.
  unfold fill. induction n as [|n IH]; [reflexivity|].
  rewrite for_upto_S, length_insert. exact IH.
Qed.

Lemma fill_lookup_in (off n : nat) (f : nat -> Z) (a : list Z) (j : nat) :
  (off <= j < off + n)%nat -> (j < length a)%nat ->
  fill off n f a !! j = Some (f (j - off)%nat).
Proof.
  intros Hj Hlen. induction n as [|n IH]; [lia|].
  unfold fill in *. rewrite for_upto_S.
  destruct (decide (j = off + n)%nat) as [->|Hne].
  - rewrite list_lookup_insert_eq.
    + do 2 f_equal. lia.
    + pose proof (fill_length off n f a) as Hl. unfold fill in Hl. lia.
  - rewrite list_lookup_insert_ne by lia. apply IH. lia.
Qed.

Lemma fill_lookup_out (off n : nat) (f : nat -> Z) (a : list Z) (j : nat) :
  ~ (off <= j < off + n)%nat -> fill off n f a !! j = a !! j.
Proof.
  intros Hj. induction n as [|n IH]; [reflexivity|].
  unfold fill in *. rewrite for_upto_S.
  rewrite list_lookup_insert_ne by lia. apply IH. lia.
Qed.

(** ** Machine arithmetic *)

Lemma i32_congr (b : Z) : exists q, i32 b = b + q * 4294967296.
Proof.
  exists (- ((b + 2147483648) / 4294967296)). unfold i32.
  pose proof (Z.div_mod (b + 2147483648) 4294967296). lia.
Qed.

Lemma u32_sub_i32 (a b : Z) : u32 (a - i32 b) = u32 (a - b).
Proof.
  destruct (i32_congr b) as [q ->]. unfold u32.
  replace (a - (b + q * 4294967296)) with (a - b + (- q) * 4294967296) by lia.
  apply Z_mod_plus_full.
Qed.

Lemma u32_sub_u32 (a b : Z) : u32 (u32 a - b) = u32 (a - b).
Proof. unfold u32. apply Zminus_mod_idemp_l. Qed.

Lemma u32_small (a : Z) : 0 <= a < 4294967296 -> u32 a = a.
Proof. apply Z.mod_small. Qed.

Lemma all_bytes_complete (b : Z) : 0 <= b < 256 -> In b all_bytes.
Proof.
  intros Hb. unfold all_bytes.
  replace b with (Z.of_nat (Z.to_nat b)) by lia.
  apply in_map, in_seq. lia.
Qed.

Lemma flipByte_range (c : Z) : 0 <= flipByte c < 256.
Proof. unfold flipByte, u8. apply Z.mod_pos_bound. lia. Qed.

(** A property checked on each of the 256 bytes holds of every byte. *)
Lemma forall_bytes (P : Z -> bool) :
  forallb P all_bytes = true -> forall b, 0 <= b < 256 -> P b = true.
Proof.
  intros H b Hb. rewrite forallb_forall in H. apply H, all_bytes_complete, Hb.
Qed.

(** Packing a byte and a framing pattern into a symbol loses nothing. *)
Lemma symbol_bytes (hi lo : Z) :
  0 <= hi < 256 -> lo = 0xFE \/ lo = 0xFF ->
  hi_byte (u16 (Z.lor (Z.shiftl (u16 hi) 8) lo)) = hi /\
  lo_byte (u16 (Z.lor (Z.shiftl (u16 hi) 8) lo)) = lo.
Proof.
  intros Hhi Hlo.
  pose proof (forall_bytes
    (fun h => (hi_byte (u16 (Z.lor (Z.shiftl (u16 h) 8) 0xFE)) =? h) &&
              (lo_byte (u16 (Z.lor (Z.shiftl (u16 h) 8) 0xFE)) =? 0xFE) &&
              (hi_byte (u16 (Z.lor (Z.shiftl (u16 h) 8) 0xFF)) =? h) &&
              (lo_byte (u16 (Z.lor (Z.shiftl (u16 h) 8) 0xFF)) =? 0xFF))
    ltac:(vm_compute; reflexivity) hi Hhi) as H.
  cbv beta in H. rewrite !andb_true_iff, !Z.eqb_eq in H.
  destruct Hlo as [-> | ->]; tauto.
Qed.

Section Properties.

Variable DMX_CHANNELS : nat.
Variable config : Config.

(** ** The callback on the universe buffer *)

Lemma onDmxPacket_i2s_eq (len : Z) (data : list Z) (g : Global) :
  onDmxPacket_i2s DMX_CHANNELS len data g =
  set_g_i2s_data
    (set_dmx_bytes
       (fill 1 DMX_CHANNELS (i2s_symbol len data (Z.of_nat DMX_CHANNELS))
          (dmx_bytes (g_i2s_data g)))
       (g_i2s_data g)) g.
Proof.
  unfold onDmxPacket_i2s, fill.
  apply (for_upto_lift
           (fun g => dmx_bytes (g_i2s_data g))
           (fun v g => set_g_i2s_data (set_dmx_bytes v (g_i2s_data g)) g)
           (fun i a => <[S i := i2s_symbol len data (Z.of_nat DMX_CHANNELS) i]> a)).
  - reflexivity.
  - reflexivity.
  - destruct g as [? ? ? ? [] ?]. reflexivity.
Qed.

Lemma onDmxPacket_uart_eq (universe len sequence : Z) (data : list Z) (g : Global) :
  onDmxPacket_uart universe len sequence data g =
  let len' := if len <? 512 then len else g_length g in
  mkGlobal universe len' sequence
    (fill 0 (Z.to_nat len') (read data) (g_data g))
    (g_i2s_data g) (g_i2s_length g).
Proof.
  unfold onDmxPacket_uart, fill. cbv zeta.
  set (g1 := if len <? 512 then _ else _).
  assert (Hg1 : g1 = mkGlobal universe (if len <? 512 then len else g_length g)
                       sequence (g_data g) (g_i2s_data g) (g_i2s_length g)).
  { subst g1. destruct (len <? 512); reflexivity. }
  rewrite (for_upto_lift g_data set_g_data (fun i a => <[i := read data i]> a)).
  - rewrite Hg1. reflexivity.
  - reflexivity.
  - reflexivity.
  - destruct g1. reflexivity.
Qed.

Lemma global_onDmxPacket (universe len sequence : Z) (data : list Z) (w : World) :
  global (onDmxPacket DMX_CHANNELS config universe len sequence data w) =
  if universe =? config_universe config
  then onDmxPacket_uart universe len sequence data
         (onDmxPacket_i2s DMX_CHANNELS len data (global w))
  else global w.
Proof.
  unfold onDmxPacket. cbv zeta.
  destruct (universe =? config_universe config);
    destruct (_ && _); reflexivity.
Qed.

Lemma i2s_data_onDmxPacket_uart (universe len sequence : Z) (data : list Z) (g : Global) :
  g_i2s_data (onDmxPacket_uart universe len sequence data g) = g_i2s_data g.
Proof. rewrite onDmxPacket_uart_eq. reflexivity. Qed.

(** After a matching packet every channel slot holds the symbol computed
    from the packet. *)
Lemma channel_symbol_onDmxPacket (universe len sequence : Z) (data : list Z)
    (w : World) (i : nat) :
  universe = config_universe config ->
  sized DMX_CHANNELS (g_i2s_data (global w)) ->
  (i < DMX_CHANNELS)%nat ->
  channel_symbol (onDmxPacket DMX_CHANNELS config universe len sequence data w) i =
  Some (i2s_symbol len data (Z.of_nat DMX_CHANNELS) i).
Proof.
  intros -> (_ & _ & Hlen) Hi. unfold channel_symbol.
  rewrite global_onDmxPacket, Z.eqb_refl, i2s_data_onDmxPacket_uart,
    onDmxPacket_i2s_eq.
  cbn [g_i2s_data set_g_i2s_data dmx_bytes set_dmx_bytes].
  rewrite fill_lookup_in by lia.
  do 2 f_equal. lia.
Qed.

Lemma i2s_symbol_bytes (len : Z) (data : list Z) (i : nat) :
  hi_byte (i2s_symbol len data (Z.of_nat DMX_CHANNELS) i) =
    (if Z.of_nat i <? len then flipByte (read data i) else 0) /\
  lo_byte (i2s_symbol len data (Z.of_nat DMX_CHANNELS) i) =
    framing DMX_CHANNELS (S i).
Proof.
  unfold i2s_symbol, framing. cbv zeta.
  assert (Hlo : (Z.of_nat i =? Z.of_nat DMX_CHANNELS - 1) = (S i =? DMX_CHANNELS)%nat).
  { destruct (Nat.eqb_spec (S i) DMX_CHANNELS); [apply Z.eqb_eq | apply Z.eqb_neq]; lia. }
  rewrite Hlo. apply symbol_bytes.
  - destruct (Z.of_nat i <? len); [apply flipByte_range | lia].
  - destruct (S i =? DMX_CHANNELS)%nat; auto.
Qed.

Lemma global_onDmxPacket_mismatch (universe len sequence : Z) (data : list Z)
    (w : World) :
  universe <> config_universe config ->
  global (onDmxPacket DMX_CHANNELS config universe len sequence data w) = global w.
Proof.
  intros Hne. rewrite global_onDmxPacket.
  destruct (Z.eqb_spec universe (config_universe config)); [contradiction | reflexivity].
Qed.

(** C2: a call of [onDmxPacket] for a universe other than [config.universe]
    leaves the whole universe buffer unchanged: universe, sequence, length,
    the 512 channel values and the I2S frame buffer. *)
Theorem onDmxPacket_other_universe (universe len sequence : Z) (data : list Z)
    (w : World) :
  universe <> config_universe config ->
  global (onDmxPacket DMX_CHANNELS config universe len sequence data w) = global w.
Proof. apply global_onDmxPacket_mismatch. Qed.

(** C3: after a call of [onDmxPacket] for the configured universe, for every
    channel index i below the packet length, the frame buffer symbol at
    index i+1 has the bit-reversal of data[i] as its high byte and, unless it
    is the last symbol, the start bit and seven stop bits 0b11111110 as its
    low byte; with data[0] = 0x01 the high byte of symbol 1 is 0x80. *)
Theorem onDmxPacket_symbol (universe len sequence : Z) (data : list Z)
    (w : World) (i : nat) :
  universe = config_universe config ->
  sized DMX_CHANNELS (g_i2s_data (global w)) ->
  Z.of_nat i < len ->
  (i < DMX_CHANNELS)%nat ->
  exists s,
    channel_symbol (onDmxPacket DMX_CHANNELS config universe len sequence data w) i
      = Some s /\
    hi_byte s = flipByte (read data i) /\
    (S i <> DMX_CHANNELS -> lo_byte s = 0xFE) /\
    (S i = DMX_CHANNELS -> lo_byte s = 0xFF) /\
    (i = 0%nat -> data !! 0%nat = Some 0x01 -> hi_byte s = 0x80).
Proof.
  intros Hu Hsz Hlen Hi.
  exists (i2s_symbol len data (Z.of_nat DMX_CHANNELS) i).
  destruct (i2s_symbol_bytes len data i) as [Hhi Hlo].
  split; [apply channel_symbol_onDmxPacket; assumption|].
  assert (Hlt : (Z.of_nat i <? len) = true) by (apply Z.ltb_lt; exact Hlen).
  rewrite Hlt in Hhi. rewrite Hhi, Hlo. unfold framing.
  repeat split.
  - intros Hne. destruct (Nat.eqb_spec (S i) DMX_CHANNELS); [contradiction | reflexivity].
  - intros ->. rewrite Nat.eqb_refl. reflexivity.
  - intros -> H0. unfold read. rewrite H0. reflexivity.
Qed.

(** C10: after a call of [onDmxPacket] for the configured universe with a
    length L below [DMX_CHANNELS], every channel index i from L up to
    [DMX_CHANNELS] has high byte 0 in its symbol at index i+1: the tail is
    sent as zeros, not as stale values. *)
Theorem onDmxPacket_tail_zero (universe len sequence : Z) (data : list Z)
    (w : World) (i : nat) :
  universe = config_universe config ->
  sized DMX_CHANNELS (g_i2s_data (global w)) ->
  len < Z.of_nat DMX_CHANNELS ->
  len <= Z.of_nat i ->
  (i < DMX_CHANNELS)%nat ->
  exists s,
    channel_symbol (onDmxPacket DMX_CHANNELS config universe len sequence data w) i
      = Some s /\
    hi_byte s = 0.
Proof.
  intros Hu Hsz _ Hlen Hi.
  exists (i2s_symbol len data (Z.of_nat DMX_CHANNELS) i).
  split; [apply channel_symbol_onDmxPacket; assumption|].
  destruct (i2s_symbol_bytes len data i) as [-> _].
  destruct (Z.ltb_spec (Z.of_nat i) len); [lia | reflexivity].
Qed.

(** ** Framing bits *)

Lemma framed_sized (p : i2s_packet) : framed DMX_CHANNELS p -> sized DMX_CHANNELS p.
Proof.
  intros ((Hm & Hs & _) & Hlen & _). unfold sized. rewrite Hm, Hs.
  repeat split. exact Hlen.
Qed.

Lemma initI2S_packet (g : Global) :
  g_i2s_data (initI2S DMX_CHANNELS g) =
  mk_i2s_packet (replicate MBB_WORDS 0xFFFF) (replicate SFB_WORDS 0) 0x000E
    (<[DMX_CHANNELS := 0x00FF]>
       (fill 0 DMX_CHANNELS (fun _ => 0x00FE) (replicate (DMX_CHANNELS + 1) 0))).
Proof.
  unfold initI2S, fill. cbv zeta.
  rewrite (for_upto_lift dmx_bytes set_dmx_bytes (fun i a => <[i := 0x00FE]> a));
    reflexivity.
Qed.

Lemma framed_initI2S (g : Global) : framed DMX_CHANNELS (g_i2s_data (initI2S DMX_CHANNELS g)).
Proof.
  rewrite initI2S_packet. split; [repeat split|]. cbn [dmx_bytes].
  assert (Hlen : length (fill 0 DMX_CHANNELS (fun _ => 0x00FE)
                           (replicate (DMX_CHANNELS + 1) 0)) = (DMX_CHANNELS + 1)%nat).
  { rewrite fill_length, length_replicate. reflexivity. }
  split; [rewrite length_insert; exact Hlen|].
  intros j s Hj. unfold framing.
  destruct (Nat.eqb_spec j DMX_CHANNELS) as [-> | Hne].
  - rewrite list_lookup_insert_eq in Hj by lia. injection Hj as <-. reflexivity.
  - rewrite list_lookup_insert_ne in Hj by lia.
    pose proof (lookup_lt_Some _ _ _ Hj) as Hlt.
    rewrite fill_lookup_in in Hj.
    + injection Hj as <-. reflexivity.
    + lia.
    + rewrite length_replicate. lia.
Qed.

Lemma framed_onDmxPacket (universe len sequence : Z) (data : list Z) (w : World) :
  framed DMX_CHANNELS (g_i2s_data (global w)) ->
  framed DMX_CHANNELS
    (g_i2s_data (global (onDmxPacket DMX_CHANNELS config universe len sequence data w))).
Proof.
  intros (Hpre & Hlen & Hlo). rewrite global_onDmxPacket.
  destruct (universe =? config_universe config);
    [|exact (conj Hpre (conj Hlen Hlo))].
  rewrite i2s_data_onDmxPacket_uart, onDmxPacket_i2s_eq.
  cbn [g_i2s_data set_g_i2s_data].
  split; [exact Hpre|]. cbn [dmx_bytes set_dmx_bytes].
  split; [rewrite fill_length; exact Hlen|].
  intros j s Hj.
  destruct (decide (1 <= j < 1 + DMX_CHANNELS)%nat) as [Hin | Hout].
  - rewrite fill_lookup_in in Hj by lia. injection Hj as <-.
    destruct (i2s_symbol_bytes len data (j - 1)) as [_ ->].
    f_equal. lia.
  - rewrite fill_lookup_out in Hj by exact Hout. apply Hlo, Hj.
Qed.

Lemma framed_setup (w : World) :
  framed DMX_CHANNELS (g_i2s_data (global (setup DMX_CHANNELS w))).
Proof. apply framed_initI2S. Qed.

Lemma framed_receive (ps : list packet) (w : World) :
  framed DMX_CHANNELS (g_i2s_data (global w)) ->
  framed DMX_CHANNELS (g_i2s_data (global (receive DMX_CHANNELS config ps w))).
Proof.
  revert w. induction ps as [|p ps IH]; intros w Hw; [exact Hw|].
  apply IH, framed_onDmxPacket. exact Hw.
Qed.

Lemma framed_low_bytes (p : i2s_packet) :
  framed DMX_CHANNELS p ->
  lo_byte <$> dmx_bytes p = replicate DMX_CHANNELS 0xFE ++ [0xFF].
Proof.
  intros (_ & Hlen & Hlo).
  apply (list_eq_same_length _ _ (DMX_CHANNELS + 1)%nat).
  - rewrite List.length_app, length_replicate. reflexivity.
  - rewrite length_fmap. exact Hlen.
  - intros i x y Hi. rewrite list_lookup_fmap.
    destruct (dmx_bytes p !! i) as [s|] eqn:Hs; [|discriminate].
    cbn. intros [= <-]. rewrite (Hlo _ _ Hs). unfold framing.
    destruct (Nat.eqb_spec i DMX_CHANNELS) as [-> | Hne].
    + rewrite lookup_app_r by (rewrite length_replicate; lia).
      rewrite length_replicate, Nat.sub_diag. intros [= <-]. reflexivity.
    + rewrite lookup_app_l by (rewrite length_replicate; lia).
      rewrite lookup_replicate_2 by lia. intros [= <-]. reflexivity.
Qed.

(** C5: after initialisation and any finite sequence of [onDmxPacket]
    calls, the low byte of every symbol of the frame buffer is the one
    [initI2S] wrote; among the symbols of [dmx_bytes] the last one has the
    all-stop-bits pattern 0b11111111 and every other one the start bit
    pattern 0b11111110. *)
Theorem framing_bits_stable (ps : list packet) (w0 : World) :
  let init := g_i2s_data (global (setup DMX_CHANNELS w0)) in
  let final :=
    g_i2s_data (global (receive DMX_CHANNELS config ps (setup DMX_CHANNELS w0))) in
  lo_byte <$> i2s_words final = lo_byte <$> i2s_words init /\
  lo_byte <$> dmx_bytes final = replicate DMX_CHANNELS 0xFE ++ [0xFF].
Proof.
  intros init final.
  assert (Hi : framed DMX_CHANNELS init) by apply framed_setup.
  assert (Hf : framed DMX_CHANNELS final) by apply framed_receive, framed_setup.
  split; [|apply framed_low_bytes, Hf].
  unfold i2s_words. rewrite !fmap_app, !fmap_cons.
  rewrite (framed_low_bytes _ Hi), (framed_low_bytes _ Hf).
  destruct Hi as ((-> & -> & ->) & _), Hf as ((-> & -> & ->) & _). reflexivity.
Qed.

(** ** The stored length and the channel values *)

Lemma g_length_onDmxPacket_i2s (len : Z) (data : list Z) (g : Global) :
  g_length (onDmxPacket_i2s DMX_CHANNELS len data g) = g_length g /\
  g_data (onDmxPacket_i2s DMX_CHANNELS len data g) = g_data g.
Proof. rewrite onDmxPacket_i2s_eq. split; reflexivity. Qed.

(** What a matching packet does to the UART side of the buffer. *)
Lemma global_onDmxPacket_match (universe len sequence : Z) (data : list Z) (w : World) :
  universe = config_universe config ->
  let g := global w in
  let g' := global (onDmxPacket DMX_CHANNELS config universe len sequence data w) in
  let len' := if len <? 512 then len else g_length g in
  g_universe g' = universe /\
  g_sequence g' = sequence /\
  g_length g' = len' /\
  g_data g' = fill 0 (Z.to_nat len') (read data) (g_data g).
Proof.
  intros Hu. cbv zeta. rewrite global_onDmxPacket, Hu, Z.eqb_refl.
  rewrite onDmxPacket_uart_eq. cbv zeta.
  destruct (g_length_onDmxPacket_i2s len data (global w)) as [-> ->].
  repeat split.
Qed.

(** For a packet shorter than 512 bytes the copy is as the comment in the
    source says: the packet's bytes, and the rest of the buffer as it was. *)
Lemma onDmxPacket_copy_short (universe len sequence : Z) (data : list Z) (w : World) :
  universe = config_universe config ->
  0 <= len < 512 ->
  length (g_data (global w)) = 512%nat ->
  length data = Z.to_nat len ->
  let g' := global (onDmxPacket DMX_CHANNELS config universe len sequence data w) in
  g_universe g' = universe /\ g_sequence g' = sequence /\ g_length g' = len /\
  g_data g' = data ++ drop (Z.to_nat len) (g_data (global w)).
Proof.
  intros Hu Hlen Hbuf Hdata. cbv zeta.
  destruct (global_onDmxPacket_match universe len sequence data w Hu)
    as (-> & -> & Hl & Hd).
  assert (Hlt : (len <? 512) = true) by (apply Z.ltb_lt; lia).
  rewrite Hlt in Hl, Hd. rewrite Hl, Hd. repeat split.
  apply (list_eq_same_length _ _ 512%nat).
  - rewrite List.length_app, length_drop. lia.
  - rewrite fill_length. exact Hbuf.
  - intros i x y Hi.
    destruct (decide (i < Z.to_nat len)%nat) as [Hin | Hout].
    + rewrite fill_lookup_in by lia. rewrite lookup_app_l by lia.
      unfold read. rewrite Nat.sub_0_r. intros [= <-] Hy. rewrite Hy. reflexivity.
    + rewrite fill_lookup_out by lia. rewrite lookup_app_r by lia.
      rewrite lookup_drop. rewrite Hdata.
      replace (Z.to_nat len + (i - Z.to_nat len))%nat with i by lia. congruence.
Qed.

Lemma buffer_ok_setup (w : World) : buffer_ok (global (setup DMX_CHANNELS w)).
Proof.
  unfold setup. cbv zeta.
  rewrite (for_upto_lift g_data set_g_data (fun i a => <[i := 0]> a)) by reflexivity.
  unfold buffer_ok, initI2S. cbn [global set_global delay set_clock set_tic_loop
    set_tic_packet set_tic_fps set_tic_web set_tic_uart set_tic_i2s g_data g_length
    set_g_i2s_length set_g_i2s_data set_g_data set_g_length set_g_sequence
    set_g_universe].
  change (for_upto 512 (fun (i : nat) (a : list Z) => <[i:=0]> a) (malloc 512 w))
    with (fill 0 512 (fun _ => 0) (malloc 512 w)).
  rewrite fill_length. unfold malloc. rewrite length_fmap, length_seq.
  split; [reflexivity | lia].
Qed.

Lemma g_length_setup (w : World) : g_length (global (setup DMX_CHANNELS w)) = 512.
Proof.
  unfold setup. cbv zeta.
  rewrite (for_upto_lift g_data set_g_data (fun i a => <[i := 0]> a)) by reflexivity.
  reflexivity.
Qed.

Lemma buffer_ok_onDmxPacket (universe len sequence : Z) (data : list Z) (w : World) :
  buffer_ok (global w) ->
  buffer_ok (global (onDmxPacket DMX_CHANNELS config universe len sequence data w)).
Proof.
  intros [Hbuf Hlen].
  destruct (Z.eqb_spec universe (config_universe config)) as [Hu | Hu].
  - destruct (global_onDmxPacket_match universe len sequence data w Hu)
      as (_ & _ & Hl & Hd).
    unfold buffer_ok. rewrite Hl, Hd, fill_length.
    split; [exact Hbuf|]. destruct (Z.ltb_spec len 512); lia.
  - rewrite global_onDmxPacket_mismatch by exact Hu. split; assumption.
Qed.

Lemma buffer_ok_receive (ps : list packet) (w : World) :
  buffer_ok (global w) -> buffer_ok (global (receive DMX_CHANNELS config ps w)).
Proof.
  revert w. induction ps as [|p ps IH]; intros w Hw; [exact Hw|].
  apply IH, buffer_ok_onDmxPacket. exact Hw.
Qed.

(** C6 (as the code has it): the stored length starts at 512 and never
    exceeds 512 under any sequence of [onDmxPacket] calls; a call for the
    configured universe with a length below 512 stores exactly that length,
    whether it is below or above the length stored before. *)
Theorem stored_length_bounded :
  (forall w, g_length (global (setup DMX_CHANNELS w)) = 512) /\
  (forall ps w,
     g_length (global (receive DMX_CHANNELS config ps (setup DMX_CHANNELS w))) <= 512) /\
  (forall universe len sequence data w,
     universe = config_universe config -> len < 512 ->
     g_length (global (onDmxPacket DMX_CHANNELS config universe len sequence data w))
       = len).
Proof.
  split; [exact g_length_setup|]. split.
  - intros ps w. apply buffer_ok_receive, buffer_ok_setup.
  - intros universe len sequence data w Hu Hlen.
    destruct (global_onDmxPacket_match universe len sequence data w Hu)
      as (_ & _ & -> & _).
    destruct (Z.ltb_spec len 512); [reflexivity | lia].
Qed.

(** ** The transports *)

Lemma read_seq_take (a : list Z) (n : nat) :
  (n <= length a)%nat -> read a <$> seq 0 n = take n a.
Proof.
  intros Hn. apply (list_eq_same_length _ _ n).
  - rewrite length_take. lia.
  - rewrite length_fmap, length_seq. reflexivity.
  - intros i x y Hi. rewrite list_lookup_fmap, lookup_seq_lt by exact Hi.
    rewrite lookup_take_lt by exact Hi. cbn. unfold read.
    intros [= <-] ->. reflexivity.
Qed.

Lemma serial_loop (n : nat) (w : World) :
  for_upto n (fun i w => Serial1_write (read (g_data (global w)) i) w) w =
  set_serial1 (serial1 w ++ (Tx <$> (read (g_data (global w)) <$> seq 0 n))) w.
Proof.
  induction n as [|n IH].
  - cbn. rewrite app_nil_r. destruct w. reflexivity.
  - rewrite for_upto_S, IH. unfold Serial1_write.
    rewrite List.seq_S, !fmap_app, app_assoc. reflexivity.
Qed.

Lemma outputSerial_effect (w : World) :
  let w' := outputSerial config w in
  serial1 w' =
    serial1 w ++ Break :: Tx 0 ::
      (Tx <$> (read (g_data (global w)) <$>
         seq 0 (Z.to_nat (MIN (g_length (global w)) (config_channels config))))) /\
  global w' = global w /\ clock w' = clock w /\ tic_loop w' = tic_loop w /\
  tic_web w' = tic_web w /\ i2s_out w' = i2s_out w.
Proof.
  unfold outputSerial. cbv zeta. rewrite serial_loop.
  destruct (_ && _); cbn; rewrite <- !app_assoc; repeat split.
Qed.

Lemma outputI2S_effect (w : World) :
  let w' := outputI2S DMX_CHANNELS w in
  i2s_out w' =
    i2s_out w ++
      [take (Z.to_nat (2 * (sizeof_i2s_data DMX_CHANNELS / 4)))
         (i2s_words (g_i2s_data (global w)))] /\
  global w' = global w /\ clock w' = clock w /\ tic_loop w' = tic_loop w /\
  tic_web w' = tic_web w /\ serial1 w' = serial1 w.
Proof.
  unfold outputI2S. cbv zeta.
  destruct (_ && _); cbn -[Z.mul Z.div Z.to_nat]; repeat split.
Qed.

Lemma onDmxPacket_frame (universe len sequence : Z) (data : list Z) (w : World) :
  let w' := onDmxPacket DMX_CHANNELS config universe len sequence data w in
  clock w' = clock w /\ tic_loop w' = tic_loop w /\ tic_web w' = tic_web w /\
  serial1 w' = serial1 w /\ i2s_out w' = i2s_out w.
Proof.
  unfold onDmxPacket. cbv zeta.
  destruct (universe =? config_universe config); destruct (_ && _);
    repeat split.
Qed.

Lemma sizeof_i2s_data_frames :
  Nat.even DMX_CHANNELS = true ->
  Z.to_nat (2 * (sizeof_i2s_data DMX_CHANNELS / 4)) =
  (MBB_WORDS + SFB_WORDS + 1 + (DMX_CHANNELS + 1))%nat.
Proof.
  intros He. apply Nat.even_spec in He as [m ->].
  unfold sizeof_i2s_data, MBB_WORDS, SFB_WORDS.
  replace (2 * Z.of_nat (10 + 2 + 1 + (2 * m + 1))) with ((Z.of_nat m + 7) * 4) by lia.
  rewrite Z.div_mul by lia. lia.
Qed.

Lemma length_i2s_words (p : i2s_packet) :
  sized DMX_CHANNELS p ->
  length (i2s_words p) = (MBB_WORDS + SFB_WORDS + 1 + (DMX_CHANNELS + 1))%nat.
Proof.
  intros (Hm & Hs & Hd). unfold i2s_words.
  rewrite !List.length_app. cbn [length]. lia.
Qed.

(** C9: the I2S transport sends the full channel count whatever the length
    of the packet: a call of [onDmxPacket] for the configured universe
    writes each of the [DMX_CHANNELS] channel symbols, and [outputI2S] hands
    the whole frame buffer to the DMA, all its words, independently of the
    stored lengths. *)
Theorem i2s_full_frame :
  (forall universe len sequence data w i,
     universe = config_universe config ->
     sized DMX_CHANNELS (g_i2s_data (global w)) ->
     (i < DMX_CHANNELS)%nat ->
     channel_symbol (onDmxPacket DMX_CHANNELS config universe len sequence data w) i
       = Some (i2s_symbol len data (Z.of_nat DMX_CHANNELS) i)) /\
  (forall w,
     sized DMX_CHANNELS (g_i2s_data (global w)) ->
     Nat.even DMX_CHANNELS = true ->
     i2s_out (outputI2S DMX_CHANNELS w) =
       i2s_out w ++ [i2s_words (g_i2s_data (global w))] /\
     length (i2s_words (g_i2s_data (global w))) =
       (MBB_WORDS + SFB_WORDS + 1 + (DMX_CHANNELS + 1))%nat).
Proof.
  split.
  - intros. apply channel_symbol_onDmxPacket; assumption.
  - intros w Hsz He.
    destruct (outputI2S_effect w) as (-> & _).
    rewrite sizeof_i2s_data_frames by exact He.
    rewrite take_ge by (rewrite length_i2s_words by exact Hsz; lia).
    split; [reflexivity | apply length_i2s_words, Hsz].
Qed.

(** C1: [outputSerial] writes, after the break, the start code 0 and then
    the first min(length, channels) bytes of the buffer in index order,
    values[0] first: exactly length bytes when length <= channels, exactly
    channels bytes when length > channels. *)
Theorem outputSerial_frame (w : World) :
  let len := g_length (global w) in
  let ch := config_channels config in
  exists bytes : list Z,
    serial1 (outputSerial config w) = serial1 w ++ Break :: Tx 0 :: (Tx <$> bytes) /\
    bytes = read (g_data (global w)) <$> seq 0 (length bytes) /\
    (buffer_ok (global w) -> bytes = take (length bytes) (g_data (global w))) /\
    Z.of_nat (length bytes) = Z.max 0 (Z.min len ch) /\
    (0 <= len <= ch -> Z.of_nat (length bytes) = len) /\
    (0 <= ch < len -> Z.of_nat (length bytes) = ch).
Proof.
  intros len ch.
  set (n := Z.to_nat (MIN len ch)).
  exists (read (g_data (global w)) <$> seq 0 n).
  assert (Hn : length (read (g_data (global w)) <$> seq 0 n) = n).
  { rewrite length_fmap, length_seq. reflexivity. }
  assert (Hmin : MIN len ch = Z.min len ch).
  { unfold MIN. destruct (Z.ltb_spec len ch); lia. }
  rewrite Hn. split; [apply outputSerial_effect|].
  split; [reflexivity|].
  split.
  - intros [Hbuf Hlen]. apply read_seq_take. subst n len. lia.
  - subst n. lia.
Qed.

(** ** The scheduler *)

Lemma u32_sub_u32_r (a b : Z) : u32 (a - u32 b) = u32 (a - b).
Proof. unfold u32. apply Zminus_mod_idemp_r. Qed.

Lemma filter_Tx (l : list Z) : List.filter is_break (Tx <$> l) = [].
Proof. induction l as [|b l IH]; [reflexivity | exact IH]. Qed.

Lemma uart_frames_outputSerial (w : World) :
  uart_frames (outputSerial config w) = S (uart_frames w).
Proof.
  unfold uart_frames. destruct (outputSerial_effect w) as (-> & _).
  rewrite List.filter_app. cbn [List.filter is_break].
  rewrite filter_Tx, List.length_app. cbn. lia.
Qed.

Lemma artnet_read_frame (e : loop_env) (w : World) :
  let w' := artnet_read DMX_CHANNELS config e w in
  clock w' = clock w /\ tic_loop w' = tic_loop w /\ tic_web w' = tic_web w /\
  serial1 w' = serial1 w /\ i2s_out w' = i2s_out w.
Proof.
  unfold artnet_read. destruct (artnet_packet e); [apply onDmxPacket_frame|].
  repeat split.
Qed.

(** The state in which [loop] makes its checks: the handler and the wait
    for WiFi have moved the clock, and the handler may have set [tic_web]. *)
Lemma loop_entry (e : loop_env) (w : World) :
  (if negb (wifi_connected e) then delay 10 (handleClient e w) else handleClient e w) =
  set_clock (clock w + pass_wait e) (set_tic_web (tic_web_checked e w) w).
Proof.
  unfold handleClient, pass_wait, web_busy, tic_web_checked, delay, millis.
  destruct w, (wifi_connected e), (web_request e) as [[[] b]|];
    unfold set_clock, set_tic_web; cbn; f_equal; lia.
Qed.

Lemma pass_wait_nonneg (e : loop_env) : 0 <= pass_wait e.
Proof.
  unfold pass_wait, web_busy.
  destruct (web_request e), (wifi_connected e); lia.
Qed.

Lemma loop_unfold (e : loop_env) (w : World) :
  let w1 := set_clock (clock w + pass_wait e) (set_tic_web (tic_web_checked e w) w) in
  loop DMX_CHANNELS config e w =
  if web_idle e w then
    let w2 := artnet_read DMX_CHANNELS config e w1 in
    if u32 (config_delay config) <? elapsed e w then
      outputI2S DMX_CHANNELS
        (outputSerial config
           (set_frameCounter (u32 (frameCounter w2 + 1))
              (set_tic_loop (i32 (check_time e w)) w2)))
    else w2
  else delay 25 w1.
Proof.
  cbv zeta. unfold loop. cbv zeta. rewrite loop_entry.
  set (w1 := set_clock _ _).
  assert (Hm : millis w1 = check_time e w) by reflexivity.
  assert (Htw : tic_web w1 = tic_web_checked e w) by reflexivity.
  assert (Htl : tic_loop w1 = tic_loop w) by reflexivity.
  unfold web_idle, elapsed. rewrite Hm, Htw, Z.leb_antisym.
  destruct (_ <? 5000); cbn [negb]; [reflexivity|].
  destruct (artnet_read_frame e w1) as (Hc & Hl & _).
  unfold millis. rewrite Hc, Hl, Htl. fold (millis w1). rewrite Hm.
  reflexivity.
Qed.

Lemma loop_due (e : loop_env) (w : World) :
  tick_due config e w = true ->
  let w' := loop DMX_CHANNELS config e w in
  uart_frames w' = S (uart_frames w) /\ i2s_frames w' = S (i2s_frames w) /\
  tic_loop w' = i32 (check_time e w) /\
  clock w' = clock w + pass_wait e /\
  tic_web w' = tic_web_checked e w.
Proof.
  unfold tick_due. intros [Hidle Hdue]%andb_true_iff. cbv zeta.
  rewrite loop_unfold. cbv zeta. rewrite Hidle, Hdue.
  set (w1 := set_clock _ _).
  set (w2 := artnet_read DMX_CHANNELS config e w1).
  set (w3 := set_frameCounter _ _).
  destruct (artnet_read_frame e w1) as (Hc & _ & Hw & Hs & Hi). fold w2 in Hc, Hw, Hs, Hi.
  assert (Hs1 : serial1 w1 = serial1 w) by reflexivity.
  assert (Hi1 : i2s_out w1 = i2s_out w) by reflexivity.
  assert (Hw1 : tic_web w1 = tic_web_checked e w) by reflexivity.
  assert (Hc1 : clock w1 = clock w + pass_wait e) by reflexivity.
  destruct (outputI2S_effect (outputSerial config w3)) as (Ho & _ & Hoc & Hol & How & Hos).
  destruct (outputSerial_effect w3) as (_ & _ & Hsc & Hsl & Hsw & Hsi).
  cbv zeta in *. split; [|split; [|split; [|split]]].
  - unfold uart_frames at 1. rewrite Hos. fold (uart_frames (outputSerial config w3)).
    rewrite uart_frames_outputSerial. unfold uart_frames. subst w3. cbn [serial1 set_frameCounter set_tic_loop].
    rewrite Hs, Hs1. reflexivity.
  - unfold i2s_frames. rewrite Ho, List.length_app, Hsi. subst w3.
    cbn [i2s_out set_frameCounter set_tic_loop length]. rewrite Hi, Hi1. lia.
  - rewrite Hol, Hsl. reflexivity.
  - rewrite Hoc, Hsc. subst w3. cbn [clock set_frameCounter set_tic_loop].
    rewrite Hc. exact Hc1.
  - rewrite How, Hsw. subst w3. cbn [tic_web set_frameCounter set_tic_loop].
    rewrite Hw. exact Hw1.
Qed.

Lemma loop_not_due (e : loop_env) (w : World) :
  tick_due config e w = false ->
  let w' := loop DMX_CHANNELS config e w in
  uart_frames w' = uart_frames w /\ i2s_frames w' = i2s_frames w /\
  tic_loop w' = tic_loop w.
Proof.
  unfold tick_due. intros Hnot. cbv zeta. rewrite loop_unfold. cbv zeta.
  unfold uart_frames, i2s_frames.
  destruct (web_idle e w); cbn [andb] in Hnot.
  - rewrite Hnot.
    destruct (artnet_read_frame e
                (set_clock (clock w + pass_wait e)
                   (set_tic_web (tic_web_checked e w) w)))
      as (_ & -> & _ & -> & ->).
    split; [reflexivity|]. split; reflexivity.
  - split; [reflexivity|]. split; reflexivity.
Qed.

(** The time since the tick, at the checks of a pass that begins [dt]
    milliseconds after the pass of the tick. *)
Lemma elapsed_after_tick (e e2 : loop_env) (w : World) (dt : Z) :
  tick_due config e w = true ->
  0 <= dt -> dt + pass_wait e2 < 4294967296 ->
  elapsed e2 (delay dt (loop DMX_CHANNELS config e w)) = dt + pass_wait e2.
Proof.
  intros Hdue Hdt Hlt. destruct (loop_due e w Hdue) as (_ & _ & Hl & Hc & _).
  cbv zeta in Hl, Hc. unfold elapsed, check_time.
  cbn [tic_loop clock delay set_clock]. rewrite Hl, Hc. unfold check_time.
  rewrite u32_sub_i32, u32_sub_u32, u32_sub_u32_r.
  replace (clock w + pass_wait e + dt + pass_wait e2 - (clock w + pass_wait e))
    with (dt + pass_wait e2) by lia.
  apply u32_small. pose proof (pass_wait_nonneg e2). lia.
Qed.

Lemma pass_wait_no_request (e : loop_env) :
  web_request e = None -> pass_wait e = if wifi_connected e then 0 else 10.
Proof. unfold pass_wait, web_busy. intros ->. reflexivity. Qed.

(** C8 (as the code has it): a pass of [loop] runs the transports, once
    each, exactly when at its checks [millis() - tic_web] is at least 5000
    and the time since the last tick is strictly greater than
    [config.delay]; it then sets the time of the last tick to the current
    time, and otherwise leaves it.  With a delay of 25 ms and the web gate
    open, a pass without web request that begins 10 ms after a tick sends
    nothing more, and one that begins 30 ms after a tick sends a second
    frame. *)
Theorem loop_tick (e : loop_env) (w : World) :
  let w' := loop DMX_CHANNELS config e w in
  (tick_due config e w = true ->
     uart_frames w' = S (uart_frames w) /\ i2s_frames w' = S (i2s_frames w) /\
     tic_loop w' = i32 (check_time e w)) /\
  (tick_due config e w = false ->
     uart_frames w' = uart_frames w /\ i2s_frames w' = i2s_frames w /\
     tic_loop w' = tic_loop w) /\
  (config_delay config = 25 -> tick_due config e w = true ->
     forall e2 : loop_env, web_request e2 = None ->
       (web_idle e2 (delay 10 w') = true ->
        let w'' := loop DMX_CHANNELS config e2 (delay 10 w') in
        uart_frames w'' = S (uart_frames w) /\ i2s_frames w'' = S (i2s_frames w)) /\
       (web_idle e2 (delay 30 w') = true ->
        let w'' := loop DMX_CHANNELS config e2 (delay 30 w') in
        uart_frames w'' = S (S (uart_frames w)) /\
        i2s_frames w'' = S (S (i2s_frames w)))).
Proof.
  cbv zeta. split; [|split].
  - intros Hdue. destruct (loop_due e w Hdue) as (Hu & Hi & Hl & _). auto.
  - apply loop_not_due.
  - intros Hd Hdue e2 Hreq.
    destruct (loop_due e w Hdue) as (Hu & Hi & _). cbv zeta in Hu, Hi.
    pose proof (pass_wait_no_request e2 Hreq) as Hpw.
    assert (Hb : 0 <= pass_wait e2 <= 10)
      by (rewrite Hpw; destruct (wifi_connected e2); lia).
    split; intros Hidle.
    + assert (Hnot : tick_due config e2 (delay 10 (loop DMX_CHANNELS config e w)) = false).
      { unfold tick_due. rewrite Hidle, Hd, elapsed_after_tick by (assumption || lia).
        cbn [andb]. apply Z.ltb_ge. rewrite u32_small; lia. }
      destruct (loop_not_due _ _ Hnot) as (-> & -> & _).
      unfold uart_frames, i2s_frames in *. cbn [serial1 i2s_out delay set_clock].
      auto.
    + assert (Hyes : tick_due config e2 (delay 30 (loop DMX_CHANNELS config e w)) = true).
      { unfold tick_due. rewrite Hidle, Hd, elapsed_after_tick by (assumption || lia).
        cbn [andb]. apply Z.ltb_lt. rewrite u32_small; lia. }
      destruct (loop_due _ _ Hyes) as (-> & -> & _).
      unfold uart_frames, i2s_frames in *. cbn [serial1 i2s_out delay set_clock].
      rewrite Hu, Hi. auto.
Qed.

End Properties.

(** ** Bit reversal *)

(** C4: [flipByte] is an involution on the 256 byte values and reverses the
    order of the bits: flipByte(flipByte(b)) = b for every byte b, and
    flipByte(0b10000000) = 0b00000001; bit i of the result is bit 7-i of the
    argument. *)
Theorem flipByte_involutive :
  (forall b, 0 <= b < 256 -> flipByte (flipByte b) = b) /\
  flipByte 0x80 = 0x01 /\
  (forall b i, 0 <= b < 256 -> 0 <= i < 8 ->
     Z.testbit (flipByte b) i = Z.testbit b (7 - i)).
Proof.
  split; [|split].
  - intros b Hb. apply Z.eqb_eq.
    apply (forall_bytes (fun b => flipByte (flipByte b) =? b)); [|exact Hb].
    vm_compute. reflexivity.
  - reflexivity.
  - intros b i Hb Hi.
    pose proof (forall_bytes
      (fun b => forallb
         (fun i => Bool.eqb (Z.testbit (flipByte b) i) (Z.testbit b (7 - i)))
         [0; 1; 2; 3; 4; 5; 6; 7])
      ltac:(vm_compute; reflexivity) b Hb) as H.
    cbv beta in H. rewrite forallb_forall in H.
    apply Bool.eqb_prop, H.
    assert (Hc : i = 0 \/ i = 1 \/ i = 2 \/ i = 3 \/ i = 4 \/ i = 5 \/ i = 6 \/ i = 7)
      by lia.
    cbn [In]. intuition auto.
Qed.

Lemma flipByte_involutive_witness :
  0 <= 0xA5 < 256 /\ flipByte (flipByte 0xA5) = 0xA5.
Proof.
  split; [lia | apply (proj1 flipByte_involutive); lia].
Defined.

(** ** Instances *)

Lemma sized_world0 : sized 512 (g_i2s_data (global world0)).
Proof. apply framed_sized, framed_setup. Qed.

(** The two UART scenarios: the packet of three channels is sent whole with
    [channels = 3] and cut to two channels with [channels = 2]. *)
Example outputSerial_three_channels :
  serial1 (outputSerial config0 world_short) = [Break; Tx 0; Tx 1; Tx 2; Tx 3].
Proof. vm_compute. reflexivity. Qed.

Example outputSerial_two_channels :
  serial1 (outputSerial (mkConfig 0 2 25) world_short) = [Break; Tx 0; Tx 1; Tx 2].
Proof. vm_compute. reflexivity. Qed.

Lemma outputSerial_frame_witness :
  (0 <= g_length (global world_short) <= config_channels config0 /\
   exists bytes : list Z,
     serial1 (outputSerial config0 world_short) =
       serial1 world_short ++ Break :: Tx 0 :: (Tx <$> bytes) /\
     Z.of_nat (length bytes) = g_length (global world_short)) /\
  (0 <= config_channels (mkConfig 0 2 25) < g_length (global world_short) /\
   exists bytes : list Z,
     serial1 (outputSerial (mkConfig 0 2 25) world_short) =
       serial1 world_short ++ Break :: Tx 0 :: (Tx <$> bytes) /\
     Z.of_nat (length bytes) = config_channels (mkConfig 0 2 25)).
Proof.
  assert (Hlen : g_length (global world_short) = 3) by (vm_compute; reflexivity).
  split.
  - assert (H : 0 <= g_length (global world_short) <= config_channels config0)
      by (rewrite Hlen; cbn; lia).
    split; [exact H|].
    destruct (outputSerial_frame config0 world_short)
      as (bytes & Hs & _ & _ & _ & Hle & _).
    exists bytes. split; [exact Hs | exact (Hle H)].
  - assert (H : 0 <= config_channels (mkConfig 0 2 25) < g_length (global world_short))
      by (rewrite Hlen; cbn; lia).
    split; [exact H|].
    destruct (outputSerial_frame (mkConfig 0 2 25) world_short)
      as (bytes & Hs & _ & _ & _ & _ & Hgt).
    exists bytes. split; [exact Hs | exact (Hgt H)].
Defined.

Lemma onDmxPacket_other_universe_witness :
  1 <> config_universe config0 /\
  global (onDmxPacket 512 config0 1 3 1 [1; 2; 3] world0) = global world0.
Proof.
  assert (H : 1 <> config_universe config0) by (cbn; lia).
  split; [exact H | exact (onDmxPacket_other_universe 512 config0 1 3 1 [1; 2; 3] world0 H)].
Defined.

Lemma onDmxPacket_symbol_witness :
  (0 = config_universe config0 /\ sized 512 (g_i2s_data (global world0)) /\
   Z.of_nat 0 < 3 /\ (0 < 512)%nat) /\
  exists s,
    channel_symbol (onDmxPacket 512 config0 0 3 1 [1; 2; 3] world0) 0 = Some s /\
    hi_byte s = 0x80 /\ lo_byte s = 0xFE.
Proof.
  assert (H1 : Z.of_nat 0 < 3) by lia.
  assert (H2 : (0 < 512)%nat) by lia.
  split; [exact (conj eq_refl (conj sized_world0 (conj H1 H2)))|].
  destruct (onDmxPacket_symbol 512 config0 0 3 1 [1; 2; 3] world0 0
              eq_refl sized_world0 H1 H2) as (s & Hs & _ & Hlo & _ & H0).
  exists s. split; [exact Hs|]. split; [apply H0; reflexivity | apply Hlo; lia].
Defined.

Lemma onDmxPacket_tail_zero_witness :
  (0 = config_universe config0 /\ sized 512 (g_i2s_data (global world0)) /\
   3 < Z.of_nat 512 /\ 3 <= Z.of_nat 5 /\ (5 < 512)%nat) /\
  exists s,
    channel_symbol (onDmxPacket 512 config0 0 3 1 [1; 2; 3] world0) 5 = Some s /\
    hi_byte s = 0.
Proof.
  assert (H1 : 3 < Z.of_nat 512) by lia.
  assert (H2 : 3 <= Z.of_nat 5) by lia.
  assert (H3 : (5 < 512)%nat) by lia.
  split; [exact (conj eq_refl (conj sized_world0 (conj H1 (conj H2 H3))))|].
  exact (onDmxPacket_tail_zero 512 config0 0 3 1 [1; 2; 3] world0 5
           eq_refl sized_world0 H1 H2 H3).
Defined.

(** C6, counterexample: after the short packet the stored length is 3; the
    next packet, of 100 channels, raises it to 100. *)
Lemma stored_length_raised :
  let before := g_length (global (receive 512 config0 [short_packet] world0)) in
  let after :=
    g_length (global (receive 512 config0 [short_packet; longer_packet] world0)) in
  before = 3 /\ after = 100 /\ ~ after <= before.
Proof.
  cbv zeta.
  assert (H1 : g_length (global (receive 512 config0 [short_packet] world0)) = 3)
    by (vm_compute; reflexivity).
  assert (H2 : g_length (global (receive 512 config0 [short_packet; longer_packet]
                                   world0)) = 100)
    by (vm_compute; reflexivity).
  rewrite H1, H2. repeat split. lia.
Qed.

Lemma stored_length_bounded_witness :
  (0 = config_universe config0 /\ 100 < 512) /\
  g_length (global (onDmxPacket 512 config0 0 100 2 (replicate 100 7) world_short))
    = 100.
Proof.
  assert (H : 100 < 512) by lia.
  split; [exact (conj eq_refl H)|].
  exact (proj2 (proj2 (stored_length_bounded 512 config0))
           0 100 2 (replicate 100 7) world_short eq_refl H).
Defined.

(** C7, the failing input: a full frame of 512 channels that follows a
    packet of 3 channels.  The sequence number is taken over, but the stored
    length stays 3 and only the first three values are copied; the I2S side
    of the same call does take the whole frame (channel 4 carries the
    reversed 7 and the last of the 512 channels too). *)
Theorem onDmxPacket_full_after_short :
  let w :=
    onDmxPacket 512 config0 (p_universe full_packet) (p_length full_packet)
      (p_sequence full_packet) (p_data full_packet) world_short in
  g_length (global world_short) = 3 /\
  g_universe (global w) = 0 /\
  g_sequence (global w) = 2 /\
  g_length (global w) = 3 /\
  take 5 (g_data (global w)) = [7; 7; 7; 0; 0] /\
  take 5 (p_data full_packet) = [7; 7; 7; 7; 7] /\
  g_data (global w) <> p_data full_packet /\
  channel_symbol w 3 = Some 0xE0FE /\
  channel_symbol w 511 = Some 0xE0FF.
Proof.
  cbv zeta.
  assert (Hd : take 5 (g_data (global
                 (onDmxPacket 512 config0 (p_universe full_packet)
                    (p_length full_packet) (p_sequence full_packet)
                    (p_data full_packet) world_short))) = [7; 7; 7; 0; 0])
    by (vm_compute; reflexivity).
  split; [vm_compute; reflexivity|].
  split; [vm_compute; reflexivity|].
  split; [vm_compute; reflexivity|].
  split; [vm_compute; reflexivity|].
  split; [exact Hd|].
  split; [vm_compute; reflexivity|].
  split; [|split; vm_compute; reflexivity].
  intros Heq. rewrite Heq in Hd. vm_compute in Hd. discriminate Hd.
Qed.

(** C8, counterexample: a tick fires at 6000 ms; 25 ms later the time
    since that tick equals the delay of 25 ms, the web gate is open
    ([millis() - tic_web] is 6025), and the pass of [loop] sends nothing. *)
Lemma loop_no_tick_at_delay :
  let w := delay 25 (loop 512 config0 quiet world_idle) in
  elapsed quiet w = 25 /\
  config_delay config0 <= elapsed quiet w /\
  web_idle quiet w = true /\
  uart_frames (loop 512 config0 quiet w) = uart_frames w /\
  i2s_frames (loop 512 config0 quiet w) = i2s_frames w /\
  tic_loop (loop 512 config0 quiet w) = tic_loop w.
Proof.
  cbv zeta.
  assert (He : elapsed quiet (delay 25 (loop 512 config0 quiet world_idle)) = 25)
    by (vm_compute; reflexivity).
  split; [exact He|].
  split; [rewrite He; unfold config0; cbn [config_delay]; lia|].
  split; [vm_compute; reflexivity|].
  split; [vm_compute; reflexivity|].
  split; vm_compute; reflexivity.
Qed.

Lemma loop_tick_witness :
  (tick_due config0 quiet world_idle = true /\ config_delay config0 = 25 /\
   web_request quiet = None /\
   web_idle quiet (delay 10 (loop 512 config0 quiet world_idle)) = true /\
   web_idle quiet (delay 30 (loop 512 config0 quiet world_idle)) = true) /\
  i2s_frames (loop 512 config0 quiet world_idle) = S (i2s_frames world_idle) /\
  i2s_frames (loop 512 config0 quiet (delay 10 (loop 512 config0 quiet world_idle)))
    = S (i2s_frames world_idle) /\
  i2s_frames (loop 512 config0 quiet (delay 30 (loop 512 config0 quiet world_idle)))
    = S (S (i2s_frames world_idle)).
Proof.
  assert (Hdue : tick_due config0 quiet world_idle = true) by (vm_compute; reflexivity).
  assert (H10 : web_idle quiet (delay 10 (loop 512 config0 quiet world_idle)) = true)
    by (vm_compute; reflexivity).
  assert (H30 : web_idle quiet (delay 30 (loop 512 config0 quiet world_idle)) = true)
    by (vm_compute; reflexivity).
  split; [exact (conj Hdue (conj eq_refl (conj eq_refl (conj H10 H30))))|].
  destruct (loop_tick 512 config0 quiet world_idle) as (Hyes & _ & Hsc).
  destruct (Hsc eq_refl Hdue quiet eq_refl) as (Ha & Hb).
  split; [exact (proj1 (proj2 (Hyes Hdue)))|].
  split; [exact (proj2 (Ha H10)) | exact (proj2 (Hb H30))].
Defined.

Lemma i2s_full_frame_witness :
  (0 = config_universe config0 /\ sized 512 (g_i2s_data (global world0)) /\
   (511 < 512)%nat /\ Nat.even 512 = true) /\
  channel_symbol (onDmxPacket 512 config0 0 3 1 [1; 2; 3] world0) 511
    = Some (i2s_symbol 3 [1; 2; 3] (Z.of_nat 512) 511) /\
  i2s_out (outputI2S 512 world0) = i2s_out world0 ++ [i2s_words (g_i2s_data (global world0))] /\
  length (i2s_words (g_i2s_data (global world0))) = 526%nat.
Proof.
  assert (H1 : (511 < 512)%nat) by lia.
  assert (H2 : Nat.even 512 = true) by reflexivity.
  split; [exact (conj eq_refl (conj sized_world0 (conj H1 H2)))|].
  destruct (i2s_full_frame 512 config0) as (Ha & Hb).
  split; [exact (Ha 0 3 1 [1; 2; 3] world0 511%nat eq_refl sized_world0 H1)|].
  exact (Hb world0 sized_world0 H2).
Defined.

(** * Further properties of the sketch *)

(** ** Arrays *)

Lemma fill_idem (off n : nat) (f : nat -> Z) (a : list Z) :
  fill off n f (fill off n f a) = fill off n f a.
Proof.
  apply list_eq. intros j.
  destruct (decide (off <= j < off + n)%nat) as [Hin | Hout].
  - destruct (decide (j < length a)%nat) as [Hlt | Hge].
    + rewrite !fill_lookup_in by (rewrite ?fill_length; lia). reflexivity.
    + rewrite !(proj2 (lookup_ge_None _ _)) by (rewrite ?fill_length; lia).
      reflexivity.
  - rewrite !fill_lookup_out by exact Hout. reflexivity.
Qed.

Lemma fill_const_replicate (n m : nat) (c d : Z) :
  fill 0 n (fun _ => c) (replicate (n + m) d) = replicate n c ++ replicate m d.
Proof.
  apply (list_eq_same_length _ _ (n + m)%nat).
  - rewrite List.length_app, !length_replicate. reflexivity.
  - rewrite fill_length, length_replicate. reflexivity.
  - intros i x y Hi.
    destruct (decide (i < n)%nat) as [Hlt | Hge].
    + rewrite fill_lookup_in by (rewrite ?length_replicate; lia).
      rewrite lookup_app_l by (rewrite length_replicate; lia).
      rewrite lookup_replicate_2 by lia. congruence.
    + rewrite fill_lookup_out by lia.
      rewrite lookup_app_r by (rewrite length_replicate; lia).
      rewrite !lookup_replicate_2 by (rewrite ?length_replicate; lia). congruence.
Qed.

(** A loop that stores the same value at every index of a block leaves
    nothing of what the block held. *)
Lemma fill_const_all (n : nat) (c : Z) (a : list Z) :
  length a = n -> fill 0 n (fun _ => c) a = replicate n c.
Proof.
  intros Ha. apply (list_eq_same_length _ _ n).
  - apply length_replicate.
  - rewrite fill_length. exact Ha.
  - intros i x y Hi.
    rewrite fill_lookup_in by lia.
    rewrite lookup_replicate_2 by lia. congruence.
Qed.

Lemma fill_take_drop (n : nat) (src a : list Z) :
  (n <= length src)%nat -> (n <= length a)%nat ->
  fill 0 n (read src) a = take n src ++ drop n a.
Proof.
  intros Hs Ha. apply (list_eq_same_length _ _ (length a)).
  - rewrite List.length_app, length_take, length_drop. lia.
  - apply fill_length.
  - intros i x y Hi.
    destruct (decide (i < n)%nat) as [Hlt | Hge].
    + rewrite fill_lookup_in by lia.
      rewrite lookup_app_l by (rewrite length_take; lia).
      rewrite lookup_take_lt by exact Hlt. unfold read. rewrite Nat.sub_0_r.
      intros [= <-] ->. reflexivity.
    + rewrite fill_lookup_out by lia.
      rewrite lookup_app_r by (rewrite length_take; lia).
      rewrite lookup_drop, length_take.
      replace (n + (i - n `min` length src))%nat with i by lia. congruence.
Qed.

Section Coverage.

Variable DMX_CHANNELS : nat.
Variable config : Config.

(** ** Initialisation *)

Lemma initI2S_dmx_bytes :
  <[DMX_CHANNELS := 0x00FF]>
    (fill 0 DMX_CHANNELS (fun _ => 0x00FE) (replicate (DMX_CHANNELS + 1) 0)) =
  replicate DMX_CHANNELS 0x00FE ++ [0x00FF].
Proof.
  rewrite fill_const_replicate. cbn [replicate].
  rewrite <- (Nat.add_0_r DMX_CHANNELS) at 1.
  rewrite <- (length_replicate DMX_CHANNELS 0xFE) at 1.
  rewrite insert_app_r. reflexivity.
Qed.

Lemma initI2S_words (g : Global) :
  i2s_words (g_i2s_data (initI2S DMX_CHANNELS g)) =
    replicate 10 0xFFFF ++ replicate 2 0x0000 ++ 0x000E ::
    replicate DMX_CHANNELS 0x00FE ++ [0x00FF].
Proof.
  rewrite initI2S_packet. unfold i2s_words.
  cbn [mark_before_break space_for_break mark_after_break dmx_bytes].
  rewrite initI2S_dmx_bytes. reflexivity.
Qed.

Lemma initI2S_uart_side (g : Global) :
  g_universe (initI2S DMX_CHANNELS g) = g_universe g /\
  g_length (initI2S DMX_CHANNELS g) = g_length g /\
  g_sequence (initI2S DMX_CHANNELS g) = g_sequence g /\
  g_data (initI2S DMX_CHANNELS g) = g_data g.
Proof. unfold initI2S. cbv zeta. repeat split. Qed.

(** X1: [initI2S] leaves the packet as the comment above [debugI2S] draws
    it: ten words of ones, two words of zeros, the mark after break
    0000000000001110, then 0000000011111110 for the start code and every
    channel but the last, and 0000000011111111 for the last channel; the
    UART side of the buffer is not touched. *)
Theorem initI2S_layout (g : Global) :
  i2s_words (g_i2s_data (initI2S DMX_CHANNELS g)) =
    replicate 10 0xFFFF ++ replicate 2 0x0000 ++ 0x000E ::
    replicate DMX_CHANNELS 0x00FE ++ [0x00FF] /\
  g_universe (initI2S DMX_CHANNELS g) = g_universe g /\
  g_length (initI2S DMX_CHANNELS g) = g_length g /\
  g_sequence (initI2S DMX_CHANNELS g) = g_sequence g /\
  g_data (initI2S DMX_CHANNELS g) = g_data g.
Proof.
  split; [apply initI2S_words | apply initI2S_uart_side].
Qed.

Lemma setup_global (w : World) :
  global (setup DMX_CHANNELS w) =
  initI2S DMX_CHANNELS
    (mkGlobal 0 512 0 (fill 0 512 (fun _ => 0) (malloc 512 w))
       (g_i2s_data (global w)) (g_i2s_length (global w))).
Proof.
  unfold setup. cbv zeta.
  rewrite (for_upto_lift g_data set_g_data (fun i a => <[i := 0]> a)) by reflexivity.
  reflexivity.
Qed.

Lemma setup_effect (w : World) :
  let w' := setup DMX_CHANNELS w in
  g_universe (global w') = 0 /\
  g_sequence (global w') = 0 /\
  g_length (global w') = 512 /\
  g_data (global w') = replicate 512 0 /\
  g_i2s_data (global w') =
    mk_i2s_packet (replicate 10 0xFFFF) (replicate 2 0) 0x000E
      (replicate DMX_CHANNELS 0x00FE ++ [0x00FF]) /\
  clock w' = clock w + 1000 /\
  tic_web w' = 0 /\
  tic_loop w' = i32 (u32 (clock w + 1000)) /\
  serial1 w' = serial1 w /\ i2s_out w' = i2s_out w.
Proof.
  cbv zeta. rewrite setup_global.
  set (g0 := mkGlobal _ _ _ _ _ _).
  destruct (initI2S_uart_side g0) as (-> & -> & -> & ->).
  rewrite initI2S_packet, initI2S_dmx_bytes.
  split; [reflexivity|]. split; [reflexivity|]. split; [reflexivity|].
  split.
  - subst g0. cbn [g_data]. apply fill_const_all.
    unfold malloc. rewrite length_fmap, length_seq. reflexivity.
  - split; [reflexivity|]. unfold setup. cbv zeta. repeat split.
Qed.

(** X2: [setup] initialises the whole universe buffer whatever it held
    before and whatever the block that [malloc] returns holds: universe 0,
    sequence 0, length 512, 512 channel values of zero, written by the
    clearing loop, and the I2S packet in its initial layout.  It sets the web
    timer to 0 and sends nothing on either line. *)
Theorem setup_state (w : World) :
  let w' := setup DMX_CHANNELS w in
  g_universe (global w') = 0 /\
  g_sequence (global w') = 0 /\
  g_length (global w') = 512 /\
  g_data (global w') = replicate 512 0 /\
  g_i2s_data (global w') =
    mk_i2s_packet (replicate 10 0xFFFF) (replicate 2 0) 0x000E
      (replicate DMX_CHANNELS 0x00FE ++ [0x00FF]) /\
  tic_web w' = 0 /\
  serial1 w' = serial1 w /\ i2s_out w' = i2s_out w.
Proof.
  destruct (setup_effect w) as (H1 & H2 & H3 & H4 & H5 & _ & H7 & _ & H9 & H10).
  cbv zeta. auto 10.
Qed.

(** ** Packets and the universe buffer *)

(** X3: receiving the same packet a second time, at any later time, changes
    nothing in the universe buffer: [onDmxPacket] is idempotent on
    [global], for every universe and every length. *)
Theorem onDmxPacket_idempotent (universe len sequence : Z) (data : list Z)
    (wait : Z) (w : World) :
  let w1 := onDmxPacket DMX_CHANNELS config universe len sequence data w in
  global (onDmxPacket DMX_CHANNELS config universe len sequence data (delay wait w1))
    = global w1.
Proof.
  cbv zeta. rewrite global_onDmxPacket.
  change (global (delay wait ?x)) with (global x).
  rewrite global_onDmxPacket.
  destruct (universe =? config_universe config); [|reflexivity].
  rewrite !onDmxPacket_uart_eq, !onDmxPacket_i2s_eq. cbv zeta.
  cbn [g_length g_data g_i2s_data g_i2s_length set_g_i2s_data set_dmx_bytes
       dmx_bytes mark_before_break space_for_break mark_after_break].
  rewrite fill_idem.
  assert (Hlen : (if len <? 512 then len
                  else if len <? 512 then len else g_length (global w)) =
                 (if len <? 512 then len else g_length (global w)))
    by (destruct (len <? 512); reflexivity).
  rewrite Hlen, fill_idem. reflexivity.
Qed.

Lemma onDmxPacket_copy_effect (universe len sequence : Z) (data : list Z) (w : World) :
  universe = config_universe config ->
  buffer_ok (global w) ->
  let n := if len <? 512 then len else g_length (global w) in
  (Z.to_nat n <= length data)%nat ->
  let g' := global (onDmxPacket DMX_CHANNELS config universe len sequence data w) in
  g_universe g' = universe /\ g_sequence g' = sequence /\ g_length g' = n /\
  g_data g' = take (Z.to_nat n) data ++ drop (Z.to_nat n) (g_data (global w)).
Proof.
  intros Hu [Hbuf Hlen] n Hdata g'.
  destruct (global_onDmxPacket_match DMX_CHANNELS config universe len sequence
              data w Hu) as (H1 & H2 & H3 & H4).
  cbv zeta in H1, H2, H3, H4. fold n in H3, H4. subst g'.
  rewrite H1, H2, H3, H4. repeat split.
  apply fill_take_drop; [exact Hdata|].
  subst n. destruct (Z.ltb_spec len 512); lia.
Qed.

(** X4: what a packet for the configured universe copies, as the code has
    it.  With n the packet length if that is below 512 and the stored length
    otherwise, the call stores universe and sequence, stores n as the length,
    overwrites the first n channel values with the first n packet bytes and
    keeps every value from index n on. *)
Theorem onDmxPacket_copy (universe len sequence : Z) (data : list Z) (w : World) :
  universe = config_universe config ->
  buffer_ok (global w) ->
  let n := if len <? 512 then len else g_length (global w) in
  (Z.to_nat n <= length data)%nat ->
  let g' := global (onDmxPacket DMX_CHANNELS config universe len sequence data w) in
  g_universe g' = universe /\ g_sequence g' = sequence /\ g_length g' = n /\
  g_data g' = take (Z.to_nat n) data ++ drop (Z.to_nat n) (g_data (global w)).
Proof.
  intros Hu Hok n Hdata.
  exact (onDmxPacket_copy_effect universe len sequence data w Hu Hok Hdata).
Qed.

(** X5: a full frame that arrives while the stored length is still the 512
    of [setup] replaces all 512 channel values, and the length stays 512:
    right after [setup], a packet of 512 bytes or more for the configured
    universe puts its first 512 bytes into the buffer. *)
Theorem onDmxPacket_full_after_setup (universe len sequence : Z) (data : list Z)
    (w : World) :
  universe = config_universe config ->
  512 <= len ->
  (512 <= length data)%nat ->
  let g' :=
    global (onDmxPacket DMX_CHANNELS config universe len sequence data
              (setup DMX_CHANNELS w)) in
  g_length g' = 512 /\ g_data g' = take 512 data.
Proof.
  intros Hu Hlen Hdata. cbv zeta.
  pose proof (buffer_ok_setup DMX_CHANNELS w) as Hok.
  pose proof (g_length_setup DMX_CHANNELS w) as Hl.
  assert (Hge : (len <? 512) = false) by (apply Z.ltb_ge; exact Hlen).
  destruct (onDmxPacket_copy_effect universe len sequence data (setup DMX_CHANNELS w) Hu Hok)
    as (_ & _ & H3 & H4).
  { rewrite Hge, Hl. exact Hdata. }
  rewrite Hge, Hl in H3, H4. split; [exact H3|].
  rewrite H4. destruct Hok as [Hb _].
  rewrite drop_ge by (rewrite Hb; reflexivity). apply app_nil_r.
Qed.

(** X6: from packet to UART frame.  After a packet for the configured
    universe with length below 512, the next [outputSerial] sends the break,
    the start code 0 and then the first min(length, channels) bytes of that
    packet, whatever the buffer held before. *)
Theorem packet_to_uart_frame (universe len sequence : Z) (data : list Z) (w : World) :
  universe = config_universe config ->
  buffer_ok (global w) ->
  0 <= len < 512 ->
  length data = Z.to_nat len ->
  serial1 (outputSerial config
             (onDmxPacket DMX_CHANNELS config universe len sequence data w)) =
  serial1 w ++ Break :: Tx 0 ::
    (Tx <$> take (Z.to_nat (Z.min len (config_channels config))) data).
Proof.
  intros Hu Hok Hlen Hdata.
  set (w' := onDmxPacket DMX_CHANNELS config universe len sequence data w).
  destruct (outputSerial_effect config w') as (-> & _). subst w'.
  destruct (onDmxPacket_frame DMX_CHANNELS config universe len sequence data w)
    as (_ & _ & _ & -> & _).
  assert (Hlt : (len <? 512) = true) by (apply Z.ltb_lt; lia).
  destruct (onDmxPacket_copy_effect universe len sequence data w Hu Hok) as (_ & _ & H3 & H4).
  { rewrite Hlt. lia. }
  rewrite Hlt in H3, H4. rewrite H3, H4.
  assert (Hmin : MIN len (config_channels config) = Z.min len (config_channels config)).
  { unfold MIN. destruct (Z.ltb_spec len (config_channels config)); lia. }
  rewrite Hmin.
  set (n := Z.to_nat (Z.min len (config_channels config))).
  assert (Hn : (n <= length data)%nat) by (subst n; lia).
  rewrite read_seq_take.
  - rewrite take_app_le by (rewrite length_take; lia).
    rewrite take_take. replace (n `min` Z.to_nat len)%nat with n by lia. reflexivity.
  - rewrite List.length_app, length_take. lia.
Qed.

(** ** The main loop over time *)

Lemma u32_i32 (x : Z) : u32 (i32 x) = u32 x.
Proof.
  destruct (i32_congr x) as [q ->]. unfold u32. apply Z_mod_plus_full.
Qed.

Lemma u32_sub_congr (x a b : Z) : u32 a = u32 b -> u32 (x - a) = u32 (x - b).
Proof.
  unfold u32. intros H.
  rewrite (Zminus_mod x a), (Zminus_mod x b), H. reflexivity.
Qed.

(** A pass whose web gate is closed only waits. *)
Lemma loop_gated (e : loop_env) (w : World) :
  web_idle e w = false ->
  let w' := loop DMX_CHANNELS config e w in
  global w' = global w /\ serial1 w' = serial1 w /\ i2s_out w' = i2s_out w /\
  tic_loop w' = tic_loop w /\
  tic_web w' = tic_web_checked e w /\
  clock w' = clock w + pass_wait e + 25.
Proof.
  intros Hgate. cbv zeta. rewrite loop_unfold. cbv zeta. rewrite Hgate.
  split; [reflexivity|]. split; [reflexivity|]. split; [reflexivity|].
  split; [reflexivity|]. split; reflexivity.
Qed.

(** A pass whose web gate is open reads the packet, if any, and does not
    wait. *)
Lemma loop_open (e : loop_env) (w : World) :
  web_idle e w = true ->
  let w' := loop DMX_CHANNELS config e w in
  global w' =
    global (artnet_read DMX_CHANNELS config e w) /\
  clock w' = clock w + pass_wait e /\
  tic_web w' = tic_web_checked e w.
Proof.
  intros Hgate. cbv zeta. rewrite loop_unfold. cbv zeta. rewrite Hgate.
  set (w1 := set_clock _ _).
  assert (Hg : global (artnet_read DMX_CHANNELS config e w1) =
               global (artnet_read DMX_CHANNELS config e w)).
  { unfold artnet_read. destruct (artnet_packet e) as [p|].
    - rewrite !global_onDmxPacket. reflexivity.
    - reflexivity. }
  destruct (artnet_read_frame DMX_CHANNELS config e w1) as (Hc & _ & Hw & _).
  assert (Hc1 : clock w1 = clock w + pass_wait e) by reflexivity.
  assert (Hw1 : tic_web w1 = tic_web_checked e w) by reflexivity.
  destruct (_ <? _).
  - set (w3 := set_frameCounter _ _).
    destruct (outputI2S_effect DMX_CHANNELS (outputSerial config w3))
      as (_ & -> & -> & _ & -> & _).
    destruct (outputSerial_effect config w3) as (_ & -> & -> & _ & -> & _).
    subst w3. cbn [global clock tic_web set_frameCounter set_tic_loop].
    rewrite Hg, Hc, Hw, Hc1, Hw1. repeat split.
  - rewrite Hg, Hc, Hw, Hc1, Hw1. repeat split.
Qed.

Lemma loop_clock_le (e : loop_env) (w : World) :
  clock w + pass_wait e <= clock (loop DMX_CHANNELS config e w).
Proof.
  destruct (web_idle e w) eqn:Hgate.
  - destruct (loop_open e w Hgate) as (_ & -> & _). lia.
  - destruct (loop_gated e w Hgate) as (_ & _ & _ & _ & _ & ->). lia.
Qed.

Lemma run_cons (p : Z * loop_env) (passes : list (Z * loop_env)) (w : World) :
  run DMX_CHANNELS config (p :: passes) w =
  run DMX_CHANNELS config passes (loop DMX_CHANNELS config (snd p) (delay (fst p) w)).
Proof. reflexivity. Qed.

Lemma run_clock_le (passes : list (Z * loop_env)) (w : World) :
  Forall (fun p => 0 <= fst p) passes ->
  clock w <= clock (run DMX_CHANNELS config passes w).
Proof.
  intros Hp. revert w. induction Hp as [|p passes Hp0 _ IH]; intros w; [cbn; lia|].
  rewrite run_cons. etransitivity; [|apply IH].
  pose proof (loop_clock_le (snd p) (delay (fst p) w)) as H.
  pose proof (pass_wait_nonneg (snd p)) as Hw.
  cbn [clock delay set_clock] in H. lia.
Qed.

Lemma loop_not_due_logs (e : loop_env) (w : World) :
  tick_due config e w = false ->
  serial1 (loop DMX_CHANNELS config e w) = serial1 w /\
  i2s_out (loop DMX_CHANNELS config e w) = i2s_out w.
Proof.
  unfold tick_due. intros Hnot. rewrite loop_unfold. cbv zeta.
  destruct (web_idle e w); cbn [andb] in Hnot.
  - rewrite Hnot.
    destruct (artnet_read_frame DMX_CHANNELS config e
                (set_clock (clock w + pass_wait e)
                   (set_tic_web (tic_web_checked e w) w)))
      as (_ & _ & _ & -> & ->).
    split; reflexivity.
  - split; reflexivity.
Qed.

(** No tick while the clock is within [config.delay] of the time [c1] that
    [tic_loop] holds. *)
Lemma run_no_tick (c1 : Z) (passes : list (Z * loop_env)) (w : World) :
  0 <= config_delay config < 4294967296 ->
  Forall (fun p => 0 <= fst p) passes ->
  u32 (tic_loop w) = u32 c1 ->
  c1 <= clock w ->
  clock (run DMX_CHANNELS config passes w) - c1 <= config_delay config ->
  uart_frames (run DMX_CHANNELS config passes w) = uart_frames w /\
  i2s_frames (run DMX_CHANNELS config passes w) = i2s_frames w.
Proof.
  intros Hd Hp. revert w.
  induction Hp as [|p passes Hp0 Hp IH]; intros w Htic Hc1 Hend; [split; reflexivity|].
  rewrite run_cons in *.
  set (w' := delay (fst p) w) in *.
  set (w'' := loop DMX_CHANNELS config (snd p) w') in *.
  pose proof (run_clock_le passes w'' Hp) as Hmono.
  pose proof (loop_clock_le (snd p) w') as Hpass. fold w'' in Hpass.
  assert (Hcw : clock w' = clock w + fst p) by reflexivity.
  pose proof (pass_wait_nonneg (snd p)) as Hwait.
  set (c' := clock w' + pass_wait (snd p)) in *.
  assert (Hel : elapsed (snd p) w' = c' - c1).
  { unfold elapsed, check_time. fold c'.
    change (tic_loop w') with (tic_loop w).
    rewrite u32_sub_u32, (u32_sub_congr c' _ c1 Htic).
    apply u32_small. lia. }
  assert (Hnot : tick_due config (snd p) w' = false).
  { unfold tick_due. rewrite Hel, u32_small by exact Hd.
    destruct (web_idle (snd p) w'); [|reflexivity]. cbn [andb].
    apply Z.ltb_ge. lia. }
  destruct (loop_not_due DMX_CHANNELS config (snd p) w' Hnot) as (Hu & Hi & Hl).
  cbv zeta in Hu, Hi, Hl. fold w'' in Hu, Hi, Hl.
  destruct (IH w'') as [Hu2 Hi2].
  - rewrite Hl. exact Htic.
  - lia.
  - exact Hend.
  - rewrite Hu2, Hi2, Hu, Hi. split; reflexivity.
Qed.

(** X7: the rate limit.  After a pass of [loop] that sent a frame, no
    further frame goes out on either transport as long as the clock is within
    [config.delay] milliseconds of that pass, whatever the later passes meet:
    packets, web requests, loss of WiFi. *)
Theorem no_second_frame_within_delay (e : loop_env) (w : World)
    (passes : list (Z * loop_env)) :
  0 <= config_delay config < 4294967296 ->
  tick_due config e w = true ->
  Forall (fun p => 0 <= fst p) passes ->
  let w1 := loop DMX_CHANNELS config e w in
  let w2 := run DMX_CHANNELS config passes w1 in
  clock w2 - clock w1 <= config_delay config ->
  uart_frames w2 = uart_frames w1 /\ i2s_frames w2 = i2s_frames w1.
Proof.
  intros Hd Hdue Hp w1 w2 Hend.
  destruct (loop_due DMX_CHANNELS config e w Hdue) as (_ & _ & Hl & Hc & _).
  cbv zeta in Hl, Hc. fold w1 in Hl, Hc.
  apply (run_no_tick (clock w1)); try assumption; [|lia].
  rewrite Hl, u32_i32. unfold check_time. rewrite Hc.
  unfold u32. rewrite Z.mod_mod by lia. reflexivity.
Qed.

(** What [tic_web] holds at the checks of a pass is a time between [t0] and
    the start of the pass, if [tic_web] held such a time before, or if the
    handler of the pass sets it. *)
Lemma tic_web_checked_bound (t0 : Z) (e : loop_env) (w : World) :
  t0 <= clock w ->
  (exists t1, t0 <= t1 <= clock w /\ u32 (tic_web w) = u32 t1) \/
  (exists h, web_request e = Some h /\ sets_tic_web h = true) ->
  exists t1, t0 <= t1 <= clock w /\ u32 (tic_web_checked e w) = u32 t1.
Proof.
  intros Ht0 Hcase.
  assert (Hset : exists t1, t0 <= t1 <= clock w /\ u32 (i32 (u32 (clock w))) = u32 t1).
  { exists (clock w). split; [lia|].
    rewrite u32_i32. unfold u32. rewrite Z.mod_mod by lia. reflexivity. }
  unfold tic_web_checked. destruct Hcase as [Hold | (h & -> & ->)]; [|exact Hset].
  destruct (web_request e) as [[[] b]|]; cbn [sets_tic_web]; assumption.
Qed.

(** The web gate of a pass is closed when the pass ends less than 5000 ms
    after a time that [tic_web] holds at the checks. *)
Lemma loop_gate_closed (t0 : Z) (e : loop_env) (w : World) :
  (exists t1, t0 <= t1 <= clock w /\ u32 (tic_web_checked e w) = u32 t1) ->
  clock (loop DMX_CHANNELS config e w) < t0 + 5000 ->
  web_idle e w = false.
Proof.
  intros (t1 & Ht1 & Hweb) Hend.
  pose proof (loop_clock_le e w) as Hpass.
  pose proof (pass_wait_nonneg e) as Hwait.
  unfold web_idle, check_time.
  rewrite u32_sub_u32, (u32_sub_congr _ _ t1 Hweb).
  rewrite u32_small by lia.
  apply Z.leb_gt. lia.
Qed.

(** No frame and no packet read while the clock is within 5000 ms of a time
    [t1] that [tic_web] holds. *)
Lemma run_gated (t0 : Z) (passes : list (Z * loop_env)) (w : World) :
  Forall (fun p => 0 <= fst p) passes ->
  (exists t1, t0 <= t1 <= clock w /\ u32 (tic_web w) = u32 t1) ->
  clock (run DMX_CHANNELS config passes w) < t0 + 5000 ->
  global (run DMX_CHANNELS config passes w) = global w /\
  serial1 (run DMX_CHANNELS config passes w) = serial1 w /\
  i2s_out (run DMX_CHANNELS config passes w) = i2s_out w.
Proof.
  intros Hp. revert w.
  induction Hp as [|p passes Hp0 Hp IH]; intros w (t1 & Ht1 & Hweb) Hend;
    [repeat split|].
  rewrite run_cons in *.
  set (w' := delay (fst p) w) in *.
  set (w'' := loop DMX_CHANNELS config (snd p) w') in *.
  pose proof (run_clock_le passes w'' Hp) as Hmono.
  pose proof (loop_clock_le (snd p) w') as Hpass. fold w'' in Hpass.
  pose proof (pass_wait_nonneg (snd p)) as Hwait.
  assert (Hcw : clock w' = clock w + fst p) by reflexivity.
  destruct (tic_web_checked_bound t0 (snd p) w') as (t2 & Ht2 & Hweb2).
  { lia. }
  { left. exists t1. split; [lia | exact Hweb]. }
  assert (Hgate : web_idle (snd p) w' = false).
  { apply (loop_gate_closed t0); [exists t2; split; assumption|]. fold w''. lia. }
  destruct (loop_gated (snd p) w' Hgate) as (Hg & Hs & Hi & _ & Hw & Hc).
  cbv zeta in Hg, Hs, Hi, Hw, Hc. fold w'' in Hg, Hs, Hi, Hw, Hc.
  destruct (IH w'') as (Hg2 & Hs2 & Hi2).
  - exists t2. split; [lia|]. rewrite Hw. exact Hweb2.
  - exact Hend.
  - rewrite Hg2, Hs2, Hi2, Hg, Hs, Hi. repeat split.
Qed.

(** X8: the first five seconds.  [setup] sets [tic_web] to 0, so until
    [millis()] reaches 5000 every pass of [loop] takes the web branch: no
    frame is sent on either transport and no Art-Net packet is read, so the
    universe buffer stays as [setup] left it. *)
Theorem quiet_after_setup (w0 : World) (passes : list (Z * loop_env)) :
  0 <= clock w0 ->
  Forall (fun p => 0 <= fst p) passes ->
  let w1 := setup DMX_CHANNELS w0 in
  let w2 := run DMX_CHANNELS config passes w1 in
  clock w2 < 5000 ->
  global w2 = global w1 /\ serial1 w2 = serial1 w0 /\ i2s_out w2 = i2s_out w0.
Proof.
  intros Hc0 Hp w1 w2 Hend.
  destruct (setup_effect w0) as (_ & _ & _ & _ & _ & Hc & Hw & _ & Hs & Hi).
  cbv zeta in Hc, Hw, Hs, Hi. fold w1 in Hc, Hw, Hs, Hi.
  destruct (run_gated 0 passes w1 Hp) as (Hg2 & Hs2 & Hi2).
  - exists 0. rewrite Hw, Hc. split; [lia | reflexivity].
  - exact Hend.
  - fold w2 in Hg2, Hs2, Hi2. rewrite Hg2, Hs2, Hi2, Hs, Hi. repeat split.
Qed.



(** X10: a pass of [loop] changes the universe buffer only through the
    callback: with the web gate open at the checks of the pass, that is
    [millis() - tic_web] at least 5000 after the web handler, if any, has
    run, [global] afterwards is what [onDmxPacket] makes of a received
    packet, and is unchanged when there is none; with the gate closed the
    packet is not read.  Neither transport writes to the buffer. *)
Theorem loop_global (e : loop_env) (w : World) :
  global (loop DMX_CHANNELS config e w) =
  match artnet_packet e with
  | Some p =>
      if web_idle e w
      then global (onDmxPacket DMX_CHANNELS config (p_universe p) (p_length p)
                     (p_sequence p) (p_data p) w)
      else global w
  | None => global w
  end.
Proof.
  destruct (web_idle e w) eqn:Hgate.
  - destruct (loop_open e w Hgate) as (-> & _).
    unfold artnet_read. destruct (artnet_packet e); reflexivity.
  - destruct (loop_gated e w Hgate) as (-> & _).
    destruct (artnet_packet e); reflexivity.
Qed.

(** ** The I2S frame on the wire *)

(** The value of channel [i] that [onDmxPacket] encodes. *)
Lemma i2s_symbol_value (len : Z) (data : list Z) (i : nat) :
  Forall (fun b => 0 <= b < 256) data ->
  len = Z.of_nat (length data) ->
  (i < DMX_CHANNELS)%nat ->
  exists v, padded DMX_CHANNELS data !! i = Some v /\ 0 <= v < 256 /\
    i2s_symbol len data (Z.of_nat DMX_CHANNELS) i =
    u16 (Z.lor (Z.shiftl (u16 (flipByte v)) 8)
           (if (S i =? DMX_CHANNELS)%nat then 0xFF else 0xFE)).
Proof.
  intros Hbytes -> Hi. unfold i2s_symbol, padded. cbv zeta.
  assert (Hlo : (Z.of_nat i =? Z.of_nat DMX_CHANNELS - 1) = (S i =? DMX_CHANNELS)%nat).
  { destruct (Nat.eqb_spec (S i) DMX_CHANNELS); [apply Z.eqb_eq | apply Z.eqb_neq]; lia. }
  rewrite Hlo.
  destruct (Z.ltb_spec (Z.of_nat i) (Z.of_nat (length data))) as [Hlt | Hge].
  - destruct (lookup_lt_is_Some_2 data i ltac:(lia)) as [v Hv].
    exists v. split; [|split].
    + rewrite lookup_app_l by (rewrite length_take; lia).
      rewrite lookup_take_lt by exact Hi. exact Hv.
    + exact (Forall_lookup_1 _ _ _ _ Hbytes Hv).
    + unfold read. rewrite Hv. reflexivity.
  - exists 0. split; [|split; [lia | reflexivity]].
    rewrite lookup_app_r by (rewrite length_take; lia).
    apply lookup_replicate_2. rewrite length_take. lia.
Qed.

(** A symbol on the wire: the data bits least significant bit first, seven
    stop bits and then the start bit of the next slot, or for the last
    symbol an eighth mark bit. *)
Lemma word_bits_symbol (v : Z) :
  0 <= v < 256 ->
  word_bits (u16 (Z.lor (Z.shiftl (u16 (flipByte v)) 8) 0xFE)) =
    data_bits v ++ replicate 7 true ++ [false] /\
  word_bits (u16 (Z.lor (Z.shiftl (u16 (flipByte v)) 8) 0xFF)) =
    data_bits v ++ replicate 7 true ++ [true].
Proof.
  intros Hv.
  set (P := fun v : Z =>
       bool_decide (word_bits (u16 (Z.lor (Z.shiftl (u16 (flipByte v)) 8) 0xFE)) =
                    data_bits v ++ replicate 7 true ++ [false]) &&
       bool_decide (word_bits (u16 (Z.lor (Z.shiftl (u16 (flipByte v)) 8) 0xFF)) =
                    data_bits v ++ replicate 7 true ++ [true])).
  assert (HP : forallb P all_bytes = true) by (vm_compute; reflexivity).
  pose proof (forall_bytes P HP v Hv) as H. subst P.
  cbv beta in H. apply andb_true_iff in H as [H1 H2].
  split; eapply bool_decide_eq_true_1; eassumption.
Qed.

(** Moving the start bit from the end of each word to the front of the
    next slot. *)
Lemma slots_shift (vs : list Z) :
  [false] ++ mjoin ((fun v => data_bits v ++ replicate 7 true ++ [false]) <$> vs) =
  mjoin (uart_slot <$> vs) ++ [false].
Proof.
  induction vs as [|v vs IH]; [reflexivity|].
  rewrite !fmap_cons.
  change (mjoin (?x :: ?l)) with (x ++ mjoin l).
  rewrite <- !app_assoc, IH. unfold uart_slot at 1. reflexivity.
Qed.

(** The channel symbols after a packet, as words. *)
Lemma dmx_bytes_after_packet (universe len sequence : Z) (data : list Z) (w : World)
    (m : nat) :
  DMX_CHANNELS = S m ->
  universe = config_universe config ->
  Forall (fun b => 0 <= b < 256) data ->
  len = Z.of_nat (length data) ->
  length (dmx_bytes (g_i2s_data (global w))) = (DMX_CHANNELS + 1)%nat ->
  dmx_bytes (g_i2s_data (global w)) !! 0%nat = Some 0x00FE ->
  exists vs v,
    padded DMX_CHANNELS data = vs ++ [v] /\
    Forall (fun b => 0 <= b < 256) (vs ++ [v]) /\
    dmx_bytes (g_i2s_data (global
      (onDmxPacket DMX_CHANNELS config universe len sequence data w))) =
    0x00FE ::
      ((fun v => u16 (Z.lor (Z.shiftl (u16 (flipByte v)) 8) 0xFE)) <$> vs) ++
      [u16 (Z.lor (Z.shiftl (u16 (flipByte v)) 8) 0xFF)].
Proof.
  intros HN Hu Hbytes Hlen Hsz H0.
  set (p := padded DMX_CHANNELS data).
  assert (Hpl : length p = S m).
  { subst p. unfold padded. rewrite List.length_app, length_take, length_replicate. lia. }
  destruct (lookup_lt_is_Some_2 p m ltac:(lia)) as [v Hv].
  exists (take m p), v.
  assert (Hp : p = take m p ++ [v]).
  { rewrite <- (take_drop_middle p m v Hv) at 1.
    rewrite drop_ge by lia. reflexivity. }
  assert (Hpb : Forall (fun b => 0 <= b < 256) p).
  { apply Forall_lookup. intros i x Hx.
    pose proof (lookup_lt_Some _ _ _ Hx) as Hi.
    destruct (i2s_symbol_value len data i Hbytes Hlen ltac:(lia)) as (x' & Hx' & Hr & _).
    fold p in Hx'. congruence. }
  split; [exact Hp|]. split; [rewrite <- Hp; exact Hpb|].
  rewrite global_onDmxPacket, Hu, Z.eqb_refl, i2s_data_onDmxPacket_uart,
    onDmxPacket_i2s_eq.
  cbn [g_i2s_data set_g_i2s_data dmx_bytes set_dmx_bytes].
  apply (list_eq_same_length _ _ (DMX_CHANNELS + 1)%nat).
  - cbn [length]. rewrite List.length_app, length_fmap, length_take. cbn [length]. lia.
  - rewrite fill_length. exact Hsz.
  - intros j x y Hj.
    destruct j as [|i].
    + rewrite fill_lookup_out by lia. rewrite H0. cbn. congruence.
    + rewrite fill_lookup_in by lia.
      change ((?a :: ?l) !! S i) with (l !! i).
      replace (S i - 1)%nat with i by lia.
      destruct (i2s_symbol_value len data i Hbytes Hlen ltac:(lia))
        as (x' & Hx' & _ & Hsym).
      fold p in Hx'. intros [= <-].
      destruct (Nat.eqb_spec (S i) DMX_CHANNELS) as [Heq | Hne]; rewrite Hsym.
      * assert (i = m) by lia. subst i.
        rewrite lookup_app_r by (rewrite length_fmap, length_take; lia).
        rewrite length_fmap, length_take.
        replace (m - m `min` length p)%nat with 0%nat by lia.
        assert (x' = v) by congruence. subst x'.
        intros [= <-]. reflexivity.
      * rewrite lookup_app_l by (rewrite length_fmap, length_take; lia).
        rewrite list_lookup_fmap, lookup_take_lt by lia. rewrite Hx'.
        intros [= <-]. reflexivity.
Qed.

Lemma start_code_setup (w : World) :
  (0 < DMX_CHANNELS)%nat ->
  dmx_bytes (g_i2s_data (global (setup DMX_CHANNELS w))) !! 0%nat = Some 0x00FE.
Proof.
  intros HN. destruct (setup_effect w) as (_ & _ & _ & _ & -> & _).
  cbn [dmx_bytes]. rewrite lookup_app_l by (rewrite length_replicate; exact HN).
  apply lookup_replicate_2. exact HN.
Qed.

Lemma start_code_onDmxPacket (universe len sequence : Z) (data : list Z) (w : World) :
  dmx_bytes (g_i2s_data (global w)) !! 0%nat = Some 0x00FE ->
  dmx_bytes (g_i2s_data (global
    (onDmxPacket DMX_CHANNELS config universe len sequence data w))) !! 0%nat
    = Some 0x00FE.
Proof.
  intros H0. rewrite global_onDmxPacket.
  destruct (universe =? config_universe config); [|exact H0].
  rewrite i2s_data_onDmxPacket_uart, onDmxPacket_i2s_eq.
  cbn [g_i2s_data set_g_i2s_data dmx_bytes set_dmx_bytes].
  rewrite fill_lookup_out by lia. exact H0.
Qed.

Lemma start_code_receive (ps : list packet) (w : World) :
  dmx_bytes (g_i2s_data (global w)) !! 0%nat = Some 0x00FE ->
  dmx_bytes (g_i2s_data (global (receive DMX_CHANNELS config ps w))) !! 0%nat
    = Some 0x00FE.
Proof.
  revert w. induction ps as [|p ps IH]; intros w Hw; [exact Hw|].
  apply IH, start_code_onDmxPacket. exact Hw.
Qed.

(** X11: the DMX frame the I2S transport puts on the wire.  After [setup],
    any packets, and then a packet of byte values for the configured
    universe, the frame buffer shifted out most significant bit first is: 160
    mark bits, a break of 44 bits, a mark after break of 3 bits, and then for
    the start code 0 and for each of the [DMX_CHANNELS] channels a start bit,
    the eight data bits least significant bit first and seven stop bits, with
    one more mark bit at the end.  The channels carry the packet's bytes, and
    zero past its length. *)
Theorem wire_frame_after_packet (ps : list packet) (w0 : World)
    (universe len sequence : Z) (data : list Z) :
  (0 < DMX_CHANNELS)%nat ->
  universe = config_universe config ->
  Forall (fun b => 0 <= b < 256) data ->
  len = Z.of_nat (length data) ->
  let w :=
    onDmxPacket DMX_CHANNELS config universe len sequence data
      (receive DMX_CHANNELS config ps (setup DMX_CHANNELS w0)) in
  wire_bits (i2s_words (g_i2s_data (global w))) =
    replicate 160 true ++ replicate 44 false ++ replicate 3 true ++
    mjoin (uart_slot <$> (0 :: padded DMX_CHANNELS data)) ++ [true].
Proof.
  intros HN Hu Hbytes Hlen. cbv zeta.
  set (w1 := receive DMX_CHANNELS config ps (setup DMX_CHANNELS w0)).
  set (w := onDmxPacket DMX_CHANNELS config universe len sequence data w1).
  assert (Hf1 : framed DMX_CHANNELS (g_i2s_data (global w1)))
    by apply framed_receive, framed_setup.
  assert (H0 : dmx_bytes (g_i2s_data (global w1)) !! 0%nat = Some 0x00FE)
    by (apply start_code_receive, start_code_setup; exact HN).
  assert (Hf : framed DMX_CHANNELS (g_i2s_data (global w)))
    by (apply framed_onDmxPacket; exact Hf1).
  assert (HNm : exists m, DMX_CHANNELS = S m) by (exists (pred DMX_CHANNELS); lia).
  destruct HNm as [m HNm].
  destruct (dmx_bytes_after_packet universe len sequence data w1 m HNm Hu Hbytes Hlen
              (proj1 (proj2 Hf1)) H0) as (vs & v & Hp & Hpb & Hd).
  fold w in Hd.
  destruct Hf as ((Hm & Hs & Ha) & _).
  unfold i2s_words. rewrite Hm, Hs, Ha, Hd, Hp.
  apply Forall_app in Hpb as [Hvs Hv]. rewrite Forall_singleton in Hv.
  unfold wire_bits.
  rewrite !fmap_app, !fmap_cons, !fmap_app, !join_app.
  change (mjoin (word_bits <$> replicate MBB_WORDS 65535)) with (replicate 160 true).
  change (mjoin (word_bits <$> replicate SFB_WORDS 0)) with (replicate 32 false).
  cbn [mjoin list_join fmap list_fmap].
  change (word_bits 14) with (replicate 12 false ++ replicate 3 true ++ [false]).
  change (word_bits 254) with (data_bits 0 ++ replicate 7 true ++ [false]).
  destruct (word_bits_symbol v Hv) as [_ ->].
  assert (Hws : word_bits <$>
                  ((fun v => u16 (Z.lor (Z.shiftl (u16 (flipByte v)) 8) 254)) <$> vs) =
                (fun v => data_bits v ++ replicate 7 true ++ [false]) <$> vs).
  { rewrite <- list_fmap_compose. apply list_fmap_ext. intros i x Hx. cbn.
    apply word_bits_symbol. exact (Forall_lookup_1 _ _ _ _ Hvs Hx). }
  rewrite Hws.
  pose proof (slots_shift (0 :: vs)) as Hsh.
  rewrite !fmap_cons in Hsh.
  change (mjoin (?x :: ?l)) with (x ++ mjoin l) in Hsh.
  apply (f_equal (fun l => l ++ data_bits v ++ replicate 7 true ++ [true])) in Hsh.
  rewrite !join_app. change (mjoin [?x]) with (x ++ []). rewrite !app_nil_r.
  change (replicate 44 false) with (replicate 32 false ++ replicate 12 false).
  unfold uart_slot at 3.
  rewrite <- !app_assoc in Hsh. cbn [app] in Hsh.
  rewrite <- !app_assoc. cbn [app]. rewrite <- ?app_assoc.
  do 4 f_equal. exact Hsh.
Qed.

(** ** Handing the frame to the DMA *)

(** X12: the rounding in [outputI2S].  The frame count is
    [sizeof(global.i2s_data) / 4], so with an odd [DMX_CHANNELS] the packet
    has an odd number of words and the last one, the symbol of the last
    channel, is not handed to the DMA (the comment in [onDmxPacket] asks for
    an even number of values). *)
Theorem outputI2S_odd_channels (w : World) :
  sized DMX_CHANNELS (g_i2s_data (global w)) ->
  Nat.odd DMX_CHANNELS = true ->
  exists sent last,
    i2s_out (outputI2S DMX_CHANNELS w) = i2s_out w ++ [sent] /\
    i2s_words (g_i2s_data (global w)) = sent ++ [last] /\
    dmx_bytes (g_i2s_data (global w)) !! DMX_CHANNELS = Some last.
Proof.
  intros Hsz Hodd.
  pose proof (length_i2s_words DMX_CHANNELS _ Hsz) as Hlen.
  destruct Hsz as (Hm & Hs & Hd).
  destruct (lookup_lt_is_Some_2 (dmx_bytes (g_i2s_data (global w))) DMX_CHANNELS
              ltac:(lia)) as [last Hlast].
  set (n := (MBB_WORDS + SFB_WORDS + 1 + DMX_CHANNELS)%nat).
  exists (take n (i2s_words (g_i2s_data (global w)))), last.
  assert (Hn : Z.to_nat (2 * (sizeof_i2s_data DMX_CHANNELS / 4)) = n).
  { apply Nat.odd_spec in Hodd as [k Hk]. subst n.
    unfold sizeof_i2s_data, MBB_WORDS, SFB_WORDS. rewrite Hk.
    replace (2 * Z.of_nat (10 + 2 + 1 + (2 * k + 1 + 1)))
      with (2 + (Z.of_nat k + 7) * 4) by lia.
    rewrite Z.div_add by lia. change (2 / 4) with 0. lia. }
  destruct (outputI2S_effect DMX_CHANNELS w) as (-> & _). rewrite Hn.
  split; [reflexivity|]. split; [|exact Hlast].
  assert (Hw : i2s_words (g_i2s_data (global w)) !! n = Some last).
  { unfold i2s_words.
    rewrite lookup_app_r by (subst n; lia).
    rewrite lookup_app_r by (subst n; lia).
    subst n. rewrite Hm, Hs.
    replace (MBB_WORDS + SFB_WORDS + 1 + DMX_CHANNELS - MBB_WORDS - SFB_WORDS)%nat
      with (S DMX_CHANNELS) by lia.
    exact Hlast. }
  rewrite <- (take_drop_middle _ _ _ Hw) at 1.
  rewrite drop_ge by (subst n; lia). reflexivity.
Qed.

(** ** The test code *)

Lemma testCode_global (w : World) :
  let now := i32 (millis w) in
  let x0 := u8 (Z.rem (Z.quot now 60) 240) in
  let x := if 120 <? x0 then u8 (240 - x0) else x0 in
  let enc := fun v => u16 (Z.lor (Z.shiftl (flipByte v) 8) 0x00FE) in
  global (testCode w) =
  mkGlobal (g_universe (global w)) (g_length (global w)) (g_sequence (global w))
    (<[8%nat := 150]> (<[7%nat := 0]> (<[6%nat := 0]> (<[5%nat := 30]>
       (<[4%nat := 0]> (<[3%nat := x]> (<[2%nat := 0]> (<[1%nat := x]>
          (g_data (global w))))))))))
    (set_dmx_bytes
       (<[8%nat := enc 150]> (<[7%nat := enc 0]> (<[6%nat := enc 0]>
          (<[5%nat := enc 30]> (<[4%nat := enc 0]> (<[3%nat := enc x]>
             (<[2%nat := enc 0]> (<[1%nat := enc x]>
                (dmx_bytes (g_i2s_data (global w)))))))))))
       (g_i2s_data (global w)))
    (g_i2s_length (global w)).
Proof. reflexivity. Qed.

Lemma triangle_range (t : Z) :
  0 <= t < 2147483648 ->
  let x0 := u8 (Z.rem (Z.quot (i32 t) 60) 240) in
  let x := if 120 <? x0 then u8 (240 - x0) else x0 in
  0 <= x <= 120 /\
  x = (let r := (t / 60) mod 240 in if 120 <? r then 240 - r else r).
Proof.
  intros Ht. cbv zeta.
  assert (Hi : i32 t = t).
  { unfold i32. rewrite Z.mod_small by lia. lia. }
  rewrite Hi.
  assert (Hq : 0 <= t / 60) by (apply Z.div_pos; lia).
  rewrite Z.quot_div_nonneg, Z.rem_mod_nonneg by lia.
  pose proof (Z.mod_pos_bound (t / 60) 240 ltac:(lia)) as Hr.
  set (r := (t / 60) mod 240) in *.
  assert (H8 : u8 r = r) by (unfold u8; apply Z.mod_small; lia).
  rewrite H8. destruct (Z.ltb_spec 120 r) as [Hgt | Hle].
  - assert (H8' : u8 (240 - r) = 240 - r) by (unfold u8; apply Z.mod_small; lia).
    rewrite H8'. lia.
  - lia.
Qed.

(** X13: the triangle wave of [testCode].  While [millis()] is below 2^31
    (the first 24 days), pan and tilt, channel values 1 and 3 of the UART
    buffer, both get (millis()/60) mod 240 folded at 120: a value between 0
    and 120.  The values 2 and 4 to 8 are the constants 0, 0, 30, 0, 0 and
    150, and the rest of the buffer is kept. *)
Theorem testCode_triangle (w : World) :
  buffer_ok (global w) ->
  millis w < 2147483648 ->
  let r := (millis w / 60) mod 240 in
  let x := if 120 <? r then 240 - r else r in
  0 <= x <= 120 /\
  take 8 (drop 1 (g_data (global (testCode w)))) = [x; 0; x; 0; 30; 0; 0; 150] /\
  take 1 (g_data (global (testCode w))) = take 1 (g_data (global w)) /\
  drop 9 (g_data (global (testCode w))) = drop 9 (g_data (global w)).
Proof.
  intros [Hbuf _] Hms.
  assert (Hm0 : 0 <= millis w) by (unfold millis, u32; apply Z.mod_pos_bound; lia).
  destruct (triangle_range (millis w) (conj Hm0 Hms)) as [Hx Hxe].
  cbv zeta in Hx, Hxe |- *. rewrite <- Hxe.
  split; [exact Hx|].
  rewrite testCode_global. cbv zeta. cbn [g_data].
  set (x := if _ <? _ then _ else _) in *. clearbody x.
  destruct (g_data (global w)) as [|d0 [|d1 [|d2 [|d3 [|d4 [|d5 [|d6 [|d7 [|d8 l]]]]]]]]];
    try (cbn in Hbuf; lia).
  repeat split.
Qed.

(** X14: the two buffers in [testCode].  With more than eight channels the
    call keeps the framing bits of the I2S packet, and for each index k from
    1 to 8 the symbol [dmx_bytes[k]] carries, bit-reversed, the value the call
    puts into [global.data[k]].  ([onDmxPacket] pairs [global.data[i]] with
    [dmx_bytes[i + 1]].) *)
Theorem testCode_buffers (w : World) (k : nat) :
  (8 < DMX_CHANNELS)%nat ->
  buffer_ok (global w) ->
  framed DMX_CHANNELS (g_i2s_data (global w)) ->
  (1 <= k <= 8)%nat ->
  framed DMX_CHANNELS (g_i2s_data (global (testCode w))) /\
  exists v s,
    g_data (global (testCode w)) !! k = Some v /\
    dmx_bytes (g_i2s_data (global (testCode w))) !! k = Some s /\
    hi_byte s = flipByte v /\ lo_byte s = 0xFE.
Proof.
  intros HN [Hbuf _] (Hpre & Hlen & Hlo) Hk.
  rewrite testCode_global. cbv zeta. cbn [g_data g_i2s_data].
  set (x := if _ <? _ then _ else _). clearbody x.
  assert (Henc : forall v,
            hi_byte (u16 (Z.lor (Z.shiftl (flipByte v) 8) 0xFE)) = flipByte v /\
            lo_byte (u16 (Z.lor (Z.shiftl (flipByte v) 8) 0xFE)) = 0xFE).
  { intros v. pose proof (symbol_bytes (flipByte v) 0xFE (flipByte_range v)
                            (or_introl eq_refl)) as H.
    replace (u16 (flipByte v)) with (flipByte v) in H; [exact H|].
    unfold u16. symmetry. apply Z.mod_small. pose proof (flipByte_range v). lia. }
  split.
  - split; [exact Hpre|]. cbn [dmx_bytes set_dmx_bytes].
    split; [rewrite !length_insert; exact Hlen|].
    intros j s Hj.
    assert (Hfr : forall i, (1 <= i <= 8)%nat -> framing DMX_CHANNELS i = 0xFE).
    { intros i Hi. unfold framing.
      destruct (Nat.eqb_spec i DMX_CHANNELS); [lia | reflexivity]. }
    repeat match type of Hj with
    | <[?i := ?v]> ?l !! j = Some s =>
        destruct (decide (j = i)) as [-> | ?];
        [ rewrite list_lookup_insert_eq in Hj by (rewrite ?length_insert; lia);
          injection Hj as <-; rewrite Hfr by lia; apply Henc
        | rewrite list_lookup_insert_ne in Hj by lia ]
    end.
    apply Hlo, Hj.
  - cbn [dmx_bytes set_dmx_bytes].
    assert (Hc : (k = 1 \/ k = 2 \/ k = 3 \/ k = 4 \/ k = 5 \/ k = 6 \/ k = 7 \/ k = 8)%nat)
      by lia.
    destruct Hc as [-> | [-> | [-> | [-> | [-> | [-> | [-> | ->]]]]]]];
      (eexists _, _; (split; [|split]);
       [ repeat (rewrite list_lookup_insert_ne by lia);
         apply list_lookup_insert_eq; rewrite ?length_insert; lia
       | repeat (rewrite list_lookup_insert_ne by lia);
         apply list_lookup_insert_eq; rewrite ?length_insert; lia
       | apply Henc ]).
Qed.

(** ** The debug output *)

(** X15: [printBits] writes the eight bits of a byte as binary digits, most
    significant first: the text has eight characters and, read as a binary
    numeral, gives the byte back; and the text of [flipByte b] is the text of
    [b] read backwards. *)
Theorem printBits_round_trip (b : Z) :
  0 <= b < 256 ->
  String.length (printBits b) = 8%nat /\
  parse_bin (printBits b) = b /\
  printBits (flipByte b) = String.rev (printBits b).
Proof.
  intros Hb.
  set (P := fun b : Z =>
         bool_decide (String.length (printBits b) = 8%nat) &&
         (parse_bin (printBits b) =? b) &&
         bool_decide (printBits (flipByte b) = String.rev (printBits b))).
  assert (HP : forallb P all_bytes = true) by (vm_compute; reflexivity).
  pose proof (forall_bytes P HP b Hb) as H. subst P. cbv beta in H.
  apply andb_true_iff in H as [H H3]. apply andb_true_iff in H as [H1 H2].
  split; [|split].
  - eapply bool_decide_eq_true_1. exact H1.
  - apply Z.eqb_eq. exact H2.
  - eapply bool_decide_eq_true_1. exact H3.
Qed.

Lemma append_assoc (a b c : string) : (a +:+ b) +:+ c = a +:+ (b +:+ c).
Proof.
  induction a as [|ch a IH]; [reflexivity|].
  change (String ch ((a +:+ b) +:+ c) = String ch (a +:+ (b +:+ c))).
  f_equal. exact IH.
Qed.

Lemma append_nil_r (a : string) : a +:+ "" = a.
Proof.
  induction a as [|ch a IH]; [reflexivity|].
  change (String ch (a +:+ "") = String ch a). f_equal. exact IH.
Qed.

Lemma concat_strings_app (l1 l2 : list string) :
  fold_right String.append EmptyString (l1 ++ l2) =
  fold_right String.append EmptyString l1 +:+ fold_right String.append EmptyString l2.
Proof.
  induction l1 as [|a l1 IH]; [reflexivity|].
  cbn [app fold_right]. rewrite IH, append_assoc. reflexivity.
Qed.

(** The text of one word in [debugI2S]. *)
Lemma debugI2S_loop (words : list Z) (n : nat) :
  (n <= length words)%nat ->
  for_upto n
    (fun i out =>
       let b := read words i in
       let hi := u8 (Z.shiftr b 8) in
       let lo := u8 (Z.land b 0xff) in
       out +:+ printBits hi +:+ printBits lo +:+ " ")
    "" =
  fold_right String.append EmptyString
    ((fun b => printBits (u8 (Z.shiftr b 8)) +:+ printBits (u8 (Z.land b 0xff)) +:+ " ")
       <$> take n words).
Proof.
  induction n as [|n IH]; intros Hn; [reflexivity|].
  rewrite for_upto_S, IH by lia. cbv zeta.
  destruct (lookup_lt_is_Some_2 words n ltac:(lia)) as [b Hb].
  rewrite (take_S_r _ _ _ Hb), fmap_app, concat_strings_app.
  unfold read. rewrite Hb. cbn [fmap list_fmap fold_right default from_option].
  rewrite append_nil_r. reflexivity.
Qed.

(** X16: after [initI2S], [debugI2S] prints the drawing in the comment above
    it: ten times sixteen ones, twice sixteen zeros, 0000000000001110, then
    0000000011111110 once for the start code and once for each channel but
    the last, and 0000000011111111; every word is followed by a space and the
    line ends with CR LF. *)
Theorem debugI2S_after_init (g : Global) :
  debugI2S DMX_CHANNELS (initI2S DMX_CHANNELS g) =
  repeat_string 10 "1111111111111111 " +:+
  repeat_string 2 "0000000000000000 " +:+
  "0000000000001110 " +:+
  repeat_string DMX_CHANNELS "0000000011111110 " +:+
  "0000000011111111 " +:+ crlf.
Proof.
  unfold debugI2S. cbv zeta.
  assert (Hcount : Z.to_nat (sizeof_i2s_data DMX_CHANNELS / 2) =
                   length (i2s_words (g_i2s_data (initI2S DMX_CHANNELS g)))).
  { rewrite (length_i2s_words DMX_CHANNELS)
      by apply framed_sized, framed_initI2S.
    unfold sizeof_i2s_data. rewrite Z.mul_comm, Z.div_mul by lia. lia. }
  rewrite Hcount, debugI2S_loop by reflexivity.
  rewrite take_ge by reflexivity.
  rewrite initI2S_words.
  rewrite !fmap_app, fmap_cons, !fmap_app, !fmap_replicate, !concat_strings_app.
  cbn [fold_right fmap list_fmap].
  rewrite !concat_strings_app. unfold repeat_string.
  change (printBits (u8 (Z.shiftr 0xFFFF 8)) +:+ printBits (u8 (Z.land 0xFFFF 255)) +:+ " ")
    with "1111111111111111 ".
  change (printBits (u8 (Z.shiftr 0 8)) +:+ printBits (u8 (Z.land 0 255)) +:+ " ")
    with "0000000000000000 ".
  change (printBits (u8 (Z.shiftr 14 8)) +:+ printBits (u8 (Z.land 14 255)) +:+ " ")
    with "0000000000001110 ".
  change (printBits (u8 (Z.shiftr 254 8)) +:+ printBits (u8 (Z.land 254 255)) +:+ " ")
    with "0000000011111110 ".
  change (printBits (u8 (Z.shiftr 255 8)) +:+ printBits (u8 (Z.land 255 255)) +:+ " ")
    with "0000000011111111 ".
  cbn [fold_right]. rewrite !append_assoc, ?append_nil_r. reflexivity.
Qed.

(** ** Every frame of a run *)

(** What a pass of [loop] appends to the two lines: when the tick is due,
    one frame each, taken from the universe buffer as the pass leaves it. *)
Lemma loop_logs (e : loop_env) (w : World) :
  let w' := loop DMX_CHANNELS config e w in
  if tick_due config e w then
    serial1 w' =
      serial1 w ++ Break :: Tx 0 ::
        (Tx <$> (read (g_data (global w')) <$>
           seq 0 (Z.to_nat (MIN (g_length (global w')) (config_channels config))))) /\
    i2s_out w' =
      i2s_out w ++
        [take (Z.to_nat (2 * (sizeof_i2s_data DMX_CHANNELS / 4)))
           (i2s_words (g_i2s_data (global w')))]
  else serial1 w' = serial1 w /\ i2s_out w' = i2s_out w.
Proof.
  cbv zeta. destruct (tick_due config e w) eqn:Hdue.
  - unfold tick_due in Hdue. apply andb_true_iff in Hdue as [Hidle Hdue].
    rewrite loop_unfold. cbv zeta. rewrite Hidle, Hdue.
    set (w1 := set_clock _ _).
    set (w2 := artnet_read DMX_CHANNELS config e w1).
    set (w3 := set_frameCounter _ _).
    destruct (artnet_read_frame DMX_CHANNELS config e w1) as (_ & _ & _ & Hs & Hi).
    fold w2 in Hs, Hi.
    assert (Hs1 : serial1 w1 = serial1 w) by reflexivity.
    assert (Hi1 : i2s_out w1 = i2s_out w) by reflexivity.
    destruct (outputI2S_effect DMX_CHANNELS (outputSerial config w3))
      as (Ho & Hog & _ & _ & _ & Hos).
    destruct (outputSerial_effect config w3) as (Hss & Hsg & _ & _ & _ & Hsi).
    cbv zeta in *. rewrite Hos, Ho, Hog, Hss, Hsg, Hsi.
    subst w3. cbn [serial1 i2s_out global set_frameCounter set_tic_loop].
    rewrite Hs, Hi, Hs1, Hi1. split; reflexivity.
  - destruct (loop_not_due_logs e w Hdue) as [Hs Hi]. split; assumption.
Qed.

Lemma buffer_ok_loop (e : loop_env) (w : World) :
  buffer_ok (global w) -> buffer_ok (global (loop DMX_CHANNELS config e w)).
Proof.
  intros Hok. destruct (web_idle e w) eqn:Hgate.
  - destruct (loop_open e w Hgate) as (-> & _). unfold artnet_read.
    destruct (artnet_packet e); [apply buffer_ok_onDmxPacket|]; exact Hok.
  - destruct (loop_gated e w Hgate) as (-> & _). exact Hok.
Qed.

Lemma framed_loop (e : loop_env) (w : World) :
  framed DMX_CHANNELS (g_i2s_data (global w)) ->
  framed DMX_CHANNELS (g_i2s_data (global (loop DMX_CHANNELS config e w))).
Proof.
  intros Hok. destruct (web_idle e w) eqn:Hgate.
  - destruct (loop_open e w Hgate) as (-> & _). unfold artnet_read.
    destruct (artnet_packet e); [apply framed_onDmxPacket|]; exact Hok.
  - destruct (loop_gated e w Hgate) as (-> & _). exact Hok.
Qed.

(** X17: the two transports run together: over any run of [loop] passes the
    number of frames sent on Serial1 and the number of frames handed to the
    I2S DMA grow by the same amount. *)
Theorem transports_in_step (passes : list (Z * loop_env)) (w : World) :
  (uart_frames (run DMX_CHANNELS config passes w) + i2s_frames w =
   i2s_frames (run DMX_CHANNELS config passes w) + uart_frames w)%nat.
Proof.
  revert w. induction passes as [|p passes IH]; intros w; [cbn; lia|].
  rewrite run_cons. specialize (IH (loop DMX_CHANNELS config (snd p) (delay (fst p) w))).
  set (w' := delay (fst p) w) in *.
  assert (Hw : uart_frames w' = uart_frames w /\ i2s_frames w' = i2s_frames w)
    by (split; reflexivity).
  destruct Hw as [Hu Hi].
  destruct (tick_due config (snd p) w') eqn:Hdue.
  - destruct (loop_due DMX_CHANNELS config (snd p) w' Hdue) as (Hu' & Hi' & _).
    cbv zeta in Hu', Hi'. lia.
  - destruct (loop_not_due DMX_CHANNELS config (snd p) w' Hdue) as (Hu' & Hi' & _).
    cbv zeta in Hu', Hi'. lia.
Qed.

Lemma framed_words_low (p : i2s_packet) :
  framed DMX_CHANNELS p ->
  lo_byte <$> i2s_words p =
  replicate 10 0xFF ++ replicate 2 0x00 ++ 0x0E :: replicate DMX_CHANNELS 0xFE ++ [0xFF].
Proof.
  intros Hf. unfold i2s_words. rewrite !fmap_app, !fmap_cons.
  rewrite (framed_low_bytes DMX_CHANNELS _ Hf).
  destruct Hf as ((-> & -> & ->) & _). reflexivity.
Qed.

(** X18: every frame the I2S DMA gets.  With an even [DMX_CHANNELS], each
    buffer handed to the DMA in any run of [loop] passes after [setup] is the
    whole packet, 14 + [DMX_CHANNELS] words, and the low bytes of its words
    are the framing bits [initI2S] wrote: ones in the mark before break,
    zeros in the break, 00001110 in the mark after break, 11111110 for the
    start code and the channels, and 11111111 for the last channel. *)
Theorem dma_frames_framed (passes : list (Z * loop_env)) (w0 : World) :
  Nat.even DMX_CHANNELS = true ->
  exists frames,
    i2s_out (run DMX_CHANNELS config passes (setup DMX_CHANNELS w0)) =
      i2s_out w0 ++ frames /\
    Forall
      (fun ws =>
         length ws = (14 + DMX_CHANNELS)%nat /\
         lo_byte <$> ws =
           replicate 10 0xFF ++ replicate 2 0x00 ++ 0x0E ::
           replicate DMX_CHANNELS 0xFE ++ [0xFF])
      frames.
Proof.
  intros Heven.
  assert (Hgen : forall passes w,
            framed DMX_CHANNELS (g_i2s_data (global w)) ->
            exists frames,
              i2s_out (run DMX_CHANNELS config passes w) = i2s_out w ++ frames /\
              Forall
                (fun ws =>
                   length ws = (14 + DMX_CHANNELS)%nat /\
                   lo_byte <$> ws =
                     replicate 10 0xFF ++ replicate 2 0x00 ++ 0x0E ::
                     replicate DMX_CHANNELS 0xFE ++ [0xFF])
                frames).
  { clear passes. intros passes. induction passes as [|p passes IH]; intros w Hf.
    - exists []. split; [symmetry; apply app_nil_r | constructor].
    - rewrite run_cons.
      set (w' := delay (fst p) w).
      assert (Hf' : framed DMX_CHANNELS
                      (g_i2s_data (global (loop DMX_CHANNELS config (snd p) w'))))
        by (apply framed_loop; exact Hf).
      destruct (IH _ Hf') as (frames & Hout & Hall).
      pose proof (loop_logs (snd p) w') as Hlog. cbv zeta in Hlog.
      destruct (tick_due config (snd p) w').
      + destruct Hlog as [_ Hi].
        rewrite sizeof_i2s_data_frames in Hi by exact Heven.
        rewrite take_ge in Hi
          by (rewrite (length_i2s_words DMX_CHANNELS) by (apply framed_sized; exact Hf');
              reflexivity).
        eexists (_ :: frames). split.
        * rewrite Hout, Hi. change (i2s_out w') with (i2s_out w).
          rewrite <- app_assoc. reflexivity.
        * constructor; [|exact Hall]. split.
          -- rewrite (length_i2s_words DMX_CHANNELS) by (apply framed_sized; exact Hf').
             unfold MBB_WORDS, SFB_WORDS. lia.
          -- apply framed_words_low. exact Hf'.
      + destruct Hlog as [_ Hi]. exists frames. split; [|exact Hall].
        rewrite Hout, Hi. reflexivity. }
  destruct (Hgen passes (setup DMX_CHANNELS w0) (framed_setup DMX_CHANNELS w0))
    as (frames & Hout & Hall).
  exists frames. split; [|exact Hall].
  rewrite Hout. destruct (setup_effect w0) as (_ & _ & _ & _ & _ & _ & _ & _ & _ & ->).
  reflexivity.
Qed.

(** X19: every frame on Serial1.  In any run of [loop] passes after [setup],
    what goes out on Serial1 is a sequence of frames, each a break, the start
    code 0 and then channel bytes, never more than 512 of them and never more
    than [config.channels], whatever lengths the packets announce. *)
Theorem uart_frames_bounded (passes : list (Z * loop_env)) (w0 : World) :
  exists frames : list (list Z),
    serial1 (run DMX_CHANNELS config passes (setup DMX_CHANNELS w0)) =
      serial1 w0 ++ mjoin ((fun bytes => Break :: Tx 0 :: (Tx <$> bytes)) <$> frames) /\
    Forall
      (fun bytes =>
         (length bytes <= 512)%nat /\
         Z.of_nat (length bytes) <= Z.max 0 (config_channels config))
      frames.
Proof.
  assert (Hgen : forall passes w,
            buffer_ok (global w) ->
            exists frames : list (list Z),
              serial1 (run DMX_CHANNELS config passes w) =
                serial1 w ++
                mjoin ((fun bytes => Break :: Tx 0 :: (Tx <$> bytes)) <$> frames) /\
              Forall
                (fun bytes =>
                   (length bytes <= 512)%nat /\
                   Z.of_nat (length bytes) <= Z.max 0 (config_channels config))
                frames).
  { clear passes. intros passes. induction passes as [|p passes IH]; intros w Hok.
    - exists []. split; [symmetry; apply app_nil_r | constructor].
    - rewrite run_cons.
      set (w' := delay (fst p) w).
      assert (Hok' : buffer_ok (global (loop DMX_CHANNELS config (snd p) w')))
        by (apply buffer_ok_loop; exact Hok).
      destruct (IH _ Hok') as (frames & Hout & Hall).
      pose proof (loop_logs (snd p) w') as Hlog. cbv zeta in Hlog.
      destruct (tick_due config (snd p) w').
      + destruct Hlog as [Hs _].
        eexists (_ :: frames). split.
        * rewrite Hout, Hs. change (serial1 w') with (serial1 w).
          rewrite fmap_cons. change (mjoin (?x :: ?l)) with (x ++ mjoin l).
          rewrite <- app_assoc. reflexivity.
        * constructor; [|exact Hall].
          rewrite length_fmap, length_seq. destruct Hok' as [_ Hlen].
          unfold MIN. destruct (Z.ltb_spec
            (g_length (global (loop DMX_CHANNELS config (snd p) w')))
            (config_channels config)); lia.
      + destruct Hlog as [Hs _]. exists frames. split; [|exact Hall].
        rewrite Hout, Hs. reflexivity. }
  destruct (Hgen passes (setup DMX_CHANNELS w0) (buffer_ok_setup DMX_CHANNELS w0))
    as (frames & Hout & Hall).
  exists frames. split; [|exact Hall].
  rewrite Hout. destruct (setup_effect w0) as (_ & _ & _ & _ & _ & _ & _ & _ & -> & _).
  reflexivity.
Qed.

(** X20: the sequence number is recorded and nothing else: two calls of
    [onDmxPacket] that differ only in the sequence number leave the same
    channel values, length, universe and I2S packet, so the frames sent next
    are the same. *)
Theorem sequence_not_used (universe len s1 s2 : Z) (data : list Z) (w : World) :
  let w1 := onDmxPacket DMX_CHANNELS config universe len s1 data w in
  let w2 := onDmxPacket DMX_CHANNELS config universe len s2 data w in
  g_data (global w1) = g_data (global w2) /\
  g_length (global w1) = g_length (global w2) /\
  g_universe (global w1) = g_universe (global w2) /\
  g_i2s_data (global w1) = g_i2s_data (global w2) /\
  serial1 (outputSerial config w1) = serial1 (outputSerial config w2) /\
  i2s_out (outputI2S DMX_CHANNELS w1) = i2s_out (outputI2S DMX_CHANNELS w2).
Proof.
  cbv zeta.
  set (w1 := onDmxPacket DMX_CHANNELS config universe len s1 data w).
  set (w2 := onDmxPacket DMX_CHANNELS config universe len s2 data w).
  assert (H : g_data (global w1) = g_data (global w2) /\
              g_length (global w1) = g_length (global w2) /\
              g_universe (global w1) = g_universe (global w2) /\
              g_i2s_data (global w1) = g_i2s_data (global w2)).
  { subst w1 w2. rewrite !global_onDmxPacket.
    destruct (universe =? config_universe config); [|repeat split].
    rewrite !onDmxPacket_uart_eq. cbv zeta. repeat split. }
  destruct H as (Hd & Hl & Hu & Hi).
  split; [exact Hd|]. split; [exact Hl|]. split; [exact Hu|]. split; [exact Hi|].
  destruct (outputSerial_effect config w1) as (-> & _).
  destruct (outputSerial_effect config w2) as (-> & _).
  destruct (outputI2S_effect DMX_CHANNELS w1) as (-> & _).
  destruct (outputI2S_effect DMX_CHANNELS w2) as (-> & _).
  rewrite Hd, Hl, Hi.
  destruct (onDmxPacket_frame DMX_CHANNELS config universe len s1 data w)
    as (_ & _ & _ & Hs1 & Ho1).
  destruct (onDmxPacket_frame DMX_CHANNELS config universe len s2 data w)
    as (_ & _ & _ & Hs2 & Ho2).
  cbv zeta in Hs1, Ho1, Hs2, Ho2. fold w1 in Hs1, Ho1. fold w2 in Hs2, Ho2.
  rewrite Hs1, Ho1, Hs2, Ho2. split; reflexivity.
Qed.

(** X21: a packet goes out in the pass that reads it.  When a pass of
    [loop] whose tick is due reads a packet for the configured universe with
    a length below 512, the UART frame of that same pass already carries the
    first min(length, channels) bytes of the packet. *)
Theorem packet_sent_in_same_pass (e : loop_env) (w : World) (p : packet) :
  tick_due config e w = true ->
  artnet_packet e = Some p ->
  p_universe p = config_universe config ->
  buffer_ok (global w) ->
  0 <= p_length p < 512 ->
  length (p_data p) = Z.to_nat (p_length p) ->
  serial1 (loop DMX_CHANNELS config e w) =
  serial1 w ++ Break :: Tx 0 ::
    (Tx <$> take (Z.to_nat (Z.min (p_length p) (config_channels config))) (p_data p)).
Proof.
  intros Hdue Hp Hu Hok Hlen Hdata.
  pose proof (loop_logs e w) as Hlog. cbv zeta in Hlog. rewrite Hdue in Hlog.
  destruct Hlog as [-> _].
  assert (Hidle : web_idle e w = true).
  { unfold tick_due in Hdue. apply andb_true_iff in Hdue as [H _]. exact H. }
  destruct (loop_open e w Hidle) as (-> & _).
  unfold artnet_read. rewrite Hp.
  assert (Hlt : (p_length p <? 512) = true) by (apply Z.ltb_lt; lia).
  destruct (onDmxPacket_copy_effect (p_universe p) (p_length p) (p_sequence p)
              (p_data p) w Hu Hok) as (_ & _ & H3 & H4).
  { rewrite Hlt. lia. }
  rewrite Hlt in H3, H4. rewrite H3, H4.
  assert (Hmin : MIN (p_length p) (config_channels config) =
                 Z.min (p_length p) (config_channels config)).
  { unfold MIN. destruct (Z.ltb_spec (p_length p) (config_channels config)); lia. }
  rewrite Hmin.
  set (n := Z.to_nat (Z.min (p_length p) (config_channels config))).
  assert (Hn : (n <= length (p_data p))%nat) by (subst n; lia).
  rewrite read_seq_take.
  - rewrite take_app_le by (rewrite length_take; lia).
    rewrite take_take. replace (n `min` Z.to_nat (p_length p))%nat with n by lia.
    reflexivity.
  - rewrite List.length_app, length_take. lia.
Qed.

End Coverage.

(** ** Instances of the further properties *)

Lemma buffer_ok_world0 : buffer_ok (global world0).
Proof. apply buffer_ok_setup. Qed.

Lemma framed_world0 : framed 512 (g_i2s_data (global world0)).
Proof. apply framed_setup. Qed.

Lemma onDmxPacket_copy_witness :
  (0 = config_universe config0 /\ buffer_ok (global world0) /\
   (Z.to_nat 3 <= length [1; 2; 3])%nat) /\
  g_length (global (onDmxPacket 512 config0 0 3 1 [1; 2; 3] world0)) = 3 /\
  g_data (global (onDmxPacket 512 config0 0 3 1 [1; 2; 3] world0)) =
    take (Z.to_nat 3) [1; 2; 3] ++ drop (Z.to_nat 3) (g_data (global world0)).
Proof.
  assert (H : (Z.to_nat 3 <= length [1; 2; 3])%nat) by (cbn; lia).
  split; [exact (conj eq_refl (conj buffer_ok_world0 H))|].
  destruct (onDmxPacket_copy 512 config0 0 3 1 [1; 2; 3] world0
              eq_refl buffer_ok_world0 H) as (_ & _ & H3 & H4).
  split; [exact H3 | exact H4].
Defined.

Lemma onDmxPacket_full_after_setup_witness :
  (0 = config_universe config0 /\ 512 <= 512 /\
   (512 <= length (replicate 512 7))%nat) /\
  g_length (global (onDmxPacket 512 config0 0 512 2 (replicate 512 7)
                      (setup 512 (boot 512)))) = 512 /\
  g_data (global (onDmxPacket 512 config0 0 512 2 (replicate 512 7)
                    (setup 512 (boot 512)))) = take 512 (replicate 512 7).
Proof.
  assert (H1 : 512 <= 512) by lia.
  assert (H2 : (512 <= length (replicate 512 7))%nat)
    by (rewrite length_replicate; lia).
  split; [exact (conj eq_refl (conj H1 H2))|].
  exact (onDmxPacket_full_after_setup 512 config0 0 512 2 (replicate 512 7)
           (boot 512) eq_refl H1 H2).
Defined.

Lemma packet_to_uart_frame_witness :
  (0 = config_universe config0 /\ buffer_ok (global world0) /\
   0 <= 3 < 512 /\ length [1; 2; 3] = Z.to_nat 3) /\
  serial1 (outputSerial config0 (onDmxPacket 512 config0 0 3 1 [1; 2; 3] world0)) =
    serial1 world0 ++ Break :: Tx 0 ::
      (Tx <$> take (Z.to_nat (Z.min 3 (config_channels config0))) [1; 2; 3]).
Proof.
  assert (H1 : 0 <= 3 < 512) by lia.
  split; [exact (conj eq_refl (conj buffer_ok_world0 (conj H1 eq_refl)))|].
  exact (packet_to_uart_frame 512 config0 0 3 1 [1; 2; 3] world0
           eq_refl buffer_ok_world0 H1 eq_refl).
Defined.

Lemma no_second_frame_within_delay_witness :
  (0 <= config_delay config0 < 4294967296 /\
   tick_due config0 quiet world_idle = true /\
   Forall (fun p : Z * loop_env => 0 <= fst p) [(10, quiet); (10, packet_pass)] /\
   clock (run 512 config0 [(10, quiet); (10, packet_pass)]
            (loop 512 config0 quiet world_idle)) -
     clock (loop 512 config0 quiet world_idle) <= config_delay config0) /\
  i2s_frames (run 512 config0 [(10, quiet); (10, packet_pass)]
                (loop 512 config0 quiet world_idle)) =
    i2s_frames (loop 512 config0 quiet world_idle).
Proof.
  assert (H1 : 0 <= config_delay config0 < 4294967296) by (cbn; lia).
  assert (H2 : tick_due config0 quiet world_idle = true) by (vm_compute; reflexivity).
  assert (H3 : Forall (fun p : Z * loop_env => 0 <= fst p)
                 [(10, quiet); (10, packet_pass)]).
  { repeat (apply Forall_cons; split; [cbn; lia|]). apply Forall_nil_2. }
  assert (H4 : clock (run 512 config0 [(10, quiet); (10, packet_pass)]
                        (loop 512 config0 quiet world_idle)) -
               clock (loop 512 config0 quiet world_idle) <= config_delay config0).
  { vm_compute. intros H. discriminate H. }
  split; [exact (conj H1 (conj H2 (conj H3 H4)))|].
  exact (proj2 (no_second_frame_within_delay 512 config0 quiet world_idle
                  [(10, quiet); (10, packet_pass)] H1 H2 H3 H4)).
Defined.

Lemma quiet_after_setup_witness :
  (0 <= clock (boot 512) /\
   Forall (fun p : Z * loop_env => 0 <= fst p) [(100, quiet); (200, packet_pass)] /\
   clock (run 512 config0 [(100, quiet); (200, packet_pass)] (setup 512 (boot 512)))
     < 5000) /\
  global (run 512 config0 [(100, quiet); (200, packet_pass)] (setup 512 (boot 512)))
    = global (setup 512 (boot 512)) /\
  i2s_out (run 512 config0 [(100, quiet); (200, packet_pass)] (setup 512 (boot 512)))
    = i2s_out (boot 512).
Proof.
  assert (H1 : 0 <= clock (boot 512)) by (cbn; lia).
  assert (H2 : Forall (fun p : Z * loop_env => 0 <= fst p)
                 [(100, quiet); (200, packet_pass)]).
  { repeat (apply Forall_cons; split; [cbn; lia|]). apply Forall_nil_2. }
  assert (H3 : clock (run 512 config0 [(100, quiet); (200, packet_pass)]
                        (setup 512 (boot 512))) < 5000)
    by (vm_compute; reflexivity).
  split; [exact (conj H1 (conj H2 H3))|].
  destruct (quiet_after_setup 512 config0 (boot 512)
              [(100, quiet); (200, packet_pass)] H1 H2 H3) as (Hg & _ & Hi).
  split; [exact Hg | exact Hi].
Defined.



(** The packet that arrives while [/reconnect] keeps the pass for six
    seconds is stored and sent in that pass; so is the one that arrives
    while a handler that leaves [tic_web] alone serves a file. *)
Example reconnect_pass_reads_packet :
  g_length (global (loop 512 config0 reconnect_pass world_idle)) = 3 /\
  uart_frames (loop 512 config0 reconnect_pass world_idle) = 1%nat.
Proof. split; vm_compute; reflexivity. Qed.

Example file_pass_reads_packet :
  web_idle file_pass world_idle = true /\
  g_length (global (loop 512 config0 file_pass world_idle)) = 3 /\
  uart_frames (loop 512 config0 file_pass world_idle) = 1%nat.
Proof. split; [|split]; vm_compute; reflexivity. Qed.

(** Four seconds after power-up no request has been served and the last
    tick is three seconds old, yet the pass sends nothing: [tic_web] is 0
    from [setup]. *)
Example loop_no_tick_after_setup :
  let w := delay 3000 world0 in
  clock w = 4000 /\ elapsed quiet w = 3000 /\ web_idle quiet w = false /\
  uart_frames (loop 512 config0 quiet w) = uart_frames w /\
  i2s_frames (loop 512 config0 quiet w) = i2s_frames w.
Proof.
  cbv zeta.
  split; [vm_compute; reflexivity|].
  split; [vm_compute; reflexivity|].
  split; [vm_compute; reflexivity|].
  split; vm_compute; reflexivity.
Qed.

(** The block that [malloc] returns is not clear before the loop of [setup]
    has run over it. *)
Example malloc_not_cleared :
  malloc 512 (boot 512) !! 0%nat = Some 0xA5 /\
  g_data (global world0) !! 0%nat = Some 0.
Proof. split; vm_compute; reflexivity. Qed.

Lemma wire_frame_after_packet_witness :
  ((0 < 512)%nat /\ 0 = config_universe config0 /\
   Forall (fun b => 0 <= b < 256) [1; 2; 3] /\ 3 = Z.of_nat (length [1; 2; 3])) /\
  wire_bits (i2s_words (g_i2s_data (global
    (onDmxPacket 512 config0 0 3 1 [1; 2; 3]
       (receive 512 config0 [] (setup 512 (boot 512))))))) =
    replicate 160 true ++ replicate 44 false ++ replicate 3 true ++
    mjoin (uart_slot <$> (0 :: padded 512 [1; 2; 3])) ++ [true].
Proof.
  assert (H1 : (0 < 512)%nat) by lia.
  assert (H2 : Forall (fun b => 0 <= b < 256) [1; 2; 3]).
  { repeat (apply Forall_cons; split; [lia|]). apply Forall_nil_2. }
  split; [exact (conj H1 (conj eq_refl (conj H2 eq_refl)))|].
  exact (wire_frame_after_packet 512 config0 [] (boot 512) 0 3 1 [1; 2; 3]
           H1 eq_refl H2 eq_refl).
Defined.

Lemma sized_world_odd : sized 3 (g_i2s_data (global world_odd)).
Proof. apply framed_sized, framed_setup. Qed.

Lemma outputI2S_odd_channels_witness :
  (sized 3 (g_i2s_data (global world_odd)) /\ Nat.odd 3 = true) /\
  exists sent last,
    i2s_out (outputI2S 3 world_odd) = i2s_out world_odd ++ [sent] /\
    i2s_words (g_i2s_data (global world_odd)) = sent ++ [last] /\
    dmx_bytes (g_i2s_data (global world_odd)) !! 3%nat = Some last.
Proof.
  split; [exact (conj sized_world_odd eq_refl)|].
  exact (outputI2S_odd_channels 3 world_odd sized_world_odd eq_refl).
Defined.

Lemma buffer_ok_delay (ms : Z) (w : World) :
  buffer_ok (global w) -> buffer_ok (global (delay ms w)).
Proof. intros H. exact H. Qed.

Lemma buffer_ok_world_test : buffer_ok (global world_test).
Proof. exact (buffer_ok_delay 7000 world0 buffer_ok_world0). Qed.

Lemma testCode_triangle_witness :
  (buffer_ok (global world_test) /\ millis world_test < 2147483648) /\
  let r := (millis world_test / 60) mod 240 in
  let x := if 120 <? r then 240 - r else r in
  0 <= x <= 120 /\
  take 8 (drop 1 (g_data (global (testCode world_test)))) = [x; 0; x; 0; 30; 0; 0; 150] /\
  take 1 (g_data (global (testCode world_test))) = take 1 (g_data (global world_test)) /\
  drop 9 (g_data (global (testCode world_test))) = drop 9 (g_data (global world_test)).
Proof.
  assert (H2 : millis world_test < 2147483648) by (vm_compute; reflexivity).
  split; [exact (conj buffer_ok_world_test H2)|].
  exact (testCode_triangle world_test buffer_ok_world_test H2).
Defined.

Lemma testCode_buffers_witness :
  ((8 < 512)%nat /\ buffer_ok (global world0) /\
   framed 512 (g_i2s_data (global world0)) /\ (1 <= 5 <= 8)%nat) /\
  framed 512 (g_i2s_data (global (testCode world0))) /\
  exists v s,
    g_data (global (testCode world0)) !! 5%nat = Some v /\
    dmx_bytes (g_i2s_data (global (testCode world0))) !! 5%nat = Some s /\
    hi_byte s = flipByte v /\ lo_byte s = 0xFE.
Proof.
  assert (H1 : (8 < 512)%nat) by lia.
  assert (H4 : (1 <= 5 <= 8)%nat) by lia.
  split; [exact (conj H1 (conj buffer_ok_world0 (conj framed_world0 H4)))|].
  exact (testCode_buffers 512 world0 5 H1 buffer_ok_world0 framed_world0 H4).
Defined.

Lemma printBits_round_trip_witness :
  0 <= 0xA5 < 256 /\
  parse_bin (printBits 0xA5) = 0xA5 /\
  printBits (flipByte 0xA5) = String.rev (printBits 0xA5).
Proof.
  assert (H : 0 <= 0xA5 < 256) by lia.
  split; [exact H | exact (proj2 (printBits_round_trip 0xA5 H))].
Defined.

Lemma dma_frames_framed_witness :
  Nat.even 512 = true /\
  exists frames,
    i2s_out (run 512 config0 [(5000, quiet); (30, packet_pass)] (setup 512 (boot 512))) =
      i2s_out (boot 512) ++ frames /\
    Forall
      (fun ws =>
         length ws = (14 + 512)%nat /\
         lo_byte <$> ws =
           replicate 10 0xFF ++ replicate 2 0x00 ++ 0x0E ::
           replicate 512 0xFE ++ [0xFF])
      frames.
Proof.
  split; [reflexivity|].
  exact (dma_frames_framed 512 config0 [(5000, quiet); (30, packet_pass)]
           (boot 512) eq_refl).
Defined.

Lemma buffer_ok_world_idle : buffer_ok (global world_idle).
Proof. exact (buffer_ok_delay 5000 world0 buffer_ok_world0). Qed.

Lemma packet_sent_in_same_pass_witness :
  (tick_due config0 packet_pass world_idle = true /\
   artnet_packet packet_pass = Some short_packet /\
   p_universe short_packet = config_universe config0 /\
   buffer_ok (global world_idle) /\
   0 <= p_length short_packet < 512 /\
   length (p_data short_packet) = Z.to_nat (p_length short_packet)) /\
  serial1 (loop 512 config0 packet_pass world_idle) =
  serial1 world_idle ++ Break :: Tx 0 ::
    (Tx <$> take (Z.to_nat (Z.min (p_length short_packet) (config_channels config0)))
       (p_data short_packet)).
Proof.
  assert (H1 : tick_due config0 packet_pass world_idle = true)
    by (vm_compute; reflexivity).
  assert (H5 : 0 <= p_length short_packet < 512) by (cbn; lia).
  split; [exact (conj H1 (conj eq_refl (conj eq_refl
                   (conj buffer_ok_world_idle (conj H5 eq_refl)))))|].
  exact (packet_sent_in_same_pass 512 config0 packet_pass world_idle short_packet
           H1 eq_refl eq_refl buffer_ok_world_idle H5 eq_refl).
Defined.

